(** * BurnMan property modifiers: a shallow embedding and its properties

    Source: [burnman/eos/property_modifiers.py].

    Numbers.  Python floats are modelled as real numbers ([R]) with exact
    arithmetic; rounding is outside this model.  A computation whose
    Python/numpy value is not a real number stops with [ArithmeticError]:
    a float division by zero (Python raises [ZeroDivisionError], a
    subclass of [ArithmeticError]), and the numpy operations whose result
    is [nan] or [inf] (numpy raises [FloatingPointError], also an
    [ArithmeticError], under [errstate(all='raise')] and warns otherwise;
    a division by zero with a numpy scalar as operand is one of them).
    So the model stops wherever the program raises, and it also stops at
    inputs where the program goes on with a value that is not a number:
    what is proved of a run that completes is proved of the runs that
    stay within the real numbers.  The compositor is given a second time
    on binary64 numbers (module [Binary64]), where the rounding of the
    attributes it recomputes can be seen.

    Objects.  A parameter set is a Python dict from strings to floats or
    lists of floats.  A list met where a float operand is expected raises
    [TypeError]; where a lookup that comes later in Python's evaluation
    order could raise its [KeyError] before that, the definition spells
    the order out.  The excesses dictionary always carries the same six
    float entries and is a record; so is the mineral.  Mutation of the
    mineral is explicit state passing, and the state survives an
    exception, as it does in Python.

    Expressions are written with the operators of [py_scope], which
    evaluate their operands from left to right and propagate exceptions,
    so that each definition reads like the function it embeds. *)

From stdpp Require Import gmap strings list.
From Stdlib Require Import Reals Lra.
From Stdlib Require PrimFloat Floats.

Local Open Scope R_scope.

(** ** Python runtime *)

Inductive exn : Type :=
  | KeyError (k : string)
  | TypeError
  | IndexError
  | ArithmeticError.

Inductive result (A : Type) : Type :=
  | Ok (a : A)
  | Raise (e : exn).
Arguments Ok {A} a.
Arguments Raise {A} e.

(** Sequencing: an exception ends the evaluation. *)
Definition bind {A B : Type} (m : result A) (f : A -> result B) : result B :=
  match m with
  | Ok a => f a
  | Raise e => Raise e
  end.

Declare Scope py_scope.
Delimit Scope py_scope with py.
Bind Scope py_scope with result.

Notation "x ← y ; z" := (bind y (fun x => z))
  (at level 20, y at level 100, z at level 200, only parsing,
   right associativity) : py_scope.
Notation "' x ← y ; z" := (bind y (fun x => z))
  (at level 20, x pattern, y at level 100, z at level 200, only parsing,
   right associativity) : py_scope.

(** A float, or a list of floats: the values a parameter set holds. *)
Inductive pyval : Type :=
  | PyFloat (x : R)
  | PyList (l : list R).

Definition dict : Type := gmap string pyval.

(** [d[k]] *)
Definition getitem (d : dict) (k : string) : result pyval :=
  match d !! k with
  | Some v => Ok v
  | None => Raise (KeyError k)
  end.

(** Use of a value as an operand of float arithmetic. *)
Definition float_of (v : pyval) : result R :=
  match v with
  | PyFloat x => Ok x
  | PyList _ => Raise TypeError
  end.

Coercion float_of : pyval >-> result.

(** [v[i]] for a literal index [i >= 0]. *)
Definition subscript (i : nat) (v : pyval) : result R :=
  match v with
  | PyFloat _ => Raise TypeError
  | PyList l =>
      match l !! i with
      | Some x => Ok x
      | None => Raise IndexError
      end
  end.

(** A float variable or literal used as an expression. *)
Definition pure_float (x : R) : result R := Ok x.
Coercion pure_float : R >-> result.

(** Binary operators evaluate the left operand first, as Python does. *)
Definition lift2 (op : R -> R -> R) (a b : result R) : result R :=
  (x ← a; y ← b; Ok (op x y))%py.

Definition py_neg (a : result R) : result R :=
  (x ← a; Ok (- x))%py.

Definition py_div (a b : result R) : result R :=
  (x ← a; y ← b;
   if Req_dec_T y 0 then Raise ArithmeticError else Ok (x / y))%py.

Definition Rltb (x y : R) : bool :=
  if Rlt_dec x y then true else false.

(** [a < b] *)
Definition py_lt (a b : result R) : result bool :=
  (x ← a; y ← b; Ok (Rltb x y))%py.

Notation "a + b" := (lift2 Rplus a b) : py_scope.
Notation "a - b" := (lift2 Rminus a b) : py_scope.
Notation "a * b" := (lift2 Rmult a b) : py_scope.
Notation "a / b" := (py_div a b) : py_scope.
Notation "- a" := (py_neg a) : py_scope.
Notation "a <? b" := (py_lt a b) : py_scope.
Notation "d .[ k ]" := (bind (getitem d k) float_of)
  (at level 1, k at level 200, left associativity, format "d .[ k ]") : py_scope.
Notation "d .[ k , i ]" := (bind (getitem d k) (subscript i))
  (at level 1, k at level 200, i at level 200, left associativity,
   format "d .[ k ,  i ]") : py_scope.

(** ** numpy *)

(** [np.sqrt]: [nan] on a negative argument. *)
Definition np_sqrt (a : result R) : result R :=
  (x ← a;
   if Rlt_dec x 0 then Raise ArithmeticError else Ok (sqrt x))%py.

(** [np.log]: [-inf] at zero, [nan] below. *)
Definition np_log (a : result R) : result R :=
  (x ← a;
   if Rlt_dec 0 x then Ok (ln x) else Raise ArithmeticError)%py.

(** [x ** y] on floats: [exp (y * ln x)] for a positive base; a zero base
    gives 0, 1 or [inf] by the sign of the exponent; a negative base has a
    value only when the exponent is an integer, and is [nan] otherwise. *)
Definition float_power (x y : R) : result R :=
  if Rlt_dec 0 x then Ok (Rpower x y)
  else if Req_dec_T x 0 then
    if Rlt_dec 0 y then Ok 0
    else if Req_dec_T y 0 then Ok 1
    else Raise ArithmeticError
  else if Req_dec_T y (IZR (Int_part y)) then Ok (powerRZ x (Int_part y))
  else Raise ArithmeticError.

(** [np.power] *)
Definition np_power (a b : result R) : result R :=
  (x ← a; y ← b; float_power x y)%py.

(** ** The excesses dictionary

    [{'G': G, 'dGdT': dGdT, 'dGdP': dGdP, 'd2GdT2': d2GdT2,
      'd2GdP2': d2GdP2, 'd2GdPdT': d2GdPdT}] *)
Module Excesses.
Record t : Type := make {
  G : R;
  dGdT : R;
  dGdP : R;
  d2GdT2 : R;
  d2GdP2 : R;
  d2GdPdT : R
}.
End Excesses.

(** ** Excess functions without root finding *)

(** [_dqf_excesses(pressure, temperature, params)].  In
    [params['H'] - temperature*params['S'] + pressure*params['V']] Python
    looks up [H], then evaluates the product [temperature*params['S']],
    and only then subtracts: a list under [H] is a [TypeError] after the
    [KeyError] of a missing [S]. *)
Definition _dqf_excesses (pressure temperature : R) (params : dict)
  : result Excesses.t :=
  (H ← getitem params "H";
   TS ← temperature * params.["S"];
   G ← H - TS + pressure * params.["V"];
   dGdT ← - params.["S"];
   dGdP ← params.["V"];
   let d2GdT2 := 0 in
   let d2GdP2 := 0 in
   let d2GdPdT := 0 in
   Ok (Excesses.make G dGdT dGdP d2GdT2 d2GdP2 d2GdPdT))%py.

(** The formulas of the [temperature < Tc] branch of [_landau_excesses]
    for [G], [dGdP] and [dGdT], as functions of [Q2]. *)
Definition landau_ordered_G (params : dict)
    (temperature Tc G_disordered Q2 : R) : result R :=
  (params.["S_D"] * ((temperature - Tc) * Q2
                     + params.["Tc_0"] * Q2 * Q2 * Q2 / 3)
   - G_disordered)%py.

Definition landau_ordered_dGdP (params : dict)
    (temperature Tc dGdP_disordered Q2 : R) : result R :=
  (- params.["V_D"] * Q2
     * (1 + 0.5 * temperature / Tc * (1 - params.["Tc_0"] / Tc))
   - dGdP_disordered)%py.

Definition landau_ordered_dGdT (params : dict)
    (Tc dGdT_disordered Q2 : R) : result R :=
  (params.["S_D"] * Q2 * (1.5 - 0.5 * params.["Tc_0"] / Tc)
   - dGdT_disordered)%py.

(** [_landau_excesses(pressure, temperature, params)] *)
Definition _landau_excesses (pressure temperature : R) (params : dict)
  : result Excesses.t :=
  (Tc ← params.["Tc_0"] + params.["V_D"] * pressure / params.["S_D"];
   G_disordered ←
     params.["S_D"] * ((temperature - Tc) + params.["Tc_0"] / 3);
   dGdT_disordered ← params.["S_D"];
   dGdP_disordered ← - params.["V_D"];
   if Rltb temperature Tc then
     Q2 ← np_sqrt (1 - temperature / Tc);
     G ← landau_ordered_G params temperature Tc G_disordered Q2;
     dGdP ← landau_ordered_dGdP params temperature Tc dGdP_disordered Q2;
     dGdT ← landau_ordered_dGdT params Tc dGdT_disordered Q2;
     d2GdP2 ←
       params.["V_D"] * params.["V_D"] * temperature
         / (params.["S_D"] * Tc * Tc * Q2)
       * (temperature * (1 + params.["Tc_0"] / Tc) / (4 * Tc)
          + Q2 * Q2 * (1 - params.["Tc_0"] / Tc) - 1);
     d2GdT2 ←
       - params.["S_D"] / (Tc * Q2) * (0.75 - 0.25 * params.["Tc_0"] / Tc);
     d2GdPdT ←
       params.["V_D"] / (2 * Tc * Q2)
       * (1 + (temperature / (2 * Tc) - Q2 * Q2)
              * (1 - params.["Tc_0"] / Tc));
     Ok (Excesses.make G dGdT dGdP d2GdT2 d2GdP2 d2GdPdT)
   else
     G ← - G_disordered;
     dGdT ← - dGdT_disordered;
     dGdP ← - dGdP_disordered;
     let d2GdT2 := 0 in
     let d2GdP2 := 0 in
     let d2GdPdT := 0 in
     Ok (Excesses.make G dGdT dGdP d2GdT2 d2GdP2 d2GdPdT))%py.

(** The reference order parameter [Q_0] of [_landau_hp_excesses].  In
    [T_0 < params['Tc_0']] both operands are evaluated before they are
    compared: a missing [Tc_0] is a [KeyError] whatever [T_0] is. *)
Definition landau_hp_Q_0 (T_0 : pyval) (params : dict) : result R :=
  (Tc_0 ← getitem params "Tc_0";
   c ← T_0 <? Tc_0;
   if c : bool then
     np_power ((params.["Tc_0"] - T_0) / params.["Tc_0"]) 0.25
   else
     Ok 0)%py.

(** The critical temperature [Tc] and the order parameter [Q] of
    [_landau_hp_excesses]. *)
Definition landau_hp_Tc (P : R) (P_0 : pyval) (params : dict) : result R :=
  (params.["Tc_0"] + params.["V_D"] * (P - P_0) / params.["S_D"])%py.

Definition landau_hp_Q (T Tc : R) (params : dict) : result R :=
  (if Rltb T Tc then
     np_power ((Tc - T) / params.["Tc_0"]) 0.25
   else
     Ok 0)%py.

(** [_landau_hp_excesses(pressure, temperature, P_0, T_0, params)] *)
Definition _landau_hp_excesses (pressure temperature : R) (P_0 T_0 : pyval)
    (params : dict) : result Excesses.t :=
  (let P := pressure in
   let T := temperature in
   Q_0 ← landau_hp_Q_0 T_0 params;
   Tc ← landau_hp_Tc P P_0 params;
   Q ← landau_hp_Q T Tc params;
   G ←
     params.["Tc_0"] * params.["S_D"]
       * (Q_0 * Q_0 - np_power Q_0 6 / 3)
     - params.["S_D"] * (Tc * Q * Q - params.["Tc_0"] * np_power Q 6 / 3)
     - T * params.["S_D"] * (Q_0 * Q_0 - Q * Q)
     + (P - P_0) * params.["V_D"] * Q_0 * Q_0;
   dGdT ← params.["S_D"] * (Q * Q - Q_0 * Q_0);
   dGdP ← - params.["V_D"] * (Q * Q - Q_0 * Q_0);
   if Rltb 1e-12 Q then
     d2GdT2 ← - params.["S_D"] / (2 * params.["Tc_0"] * Q * Q);
     d2GdP2 ←
       - params.["V_D"] * params.["V_D"]
         / (2 * params.["S_D"] * params.["Tc_0"] * Q * Q);
     d2GdPdT ← params.["V_D"] / (2 * params.["Tc_0"] * Q * Q);
     Ok (Excesses.make G dGdT dGdP d2GdT2 d2GdP2 d2GdPdT)
   else
     let d2GdT2 := 0 in
     let d2GdP2 := 0 in
     let d2GdPdT := 0 in
     Ok (Excesses.make G dGdT dGdP d2GdT2 d2GdP2 d2GdPdT))%py.

(** ** Excess functions that use the gas constant and the root finder

    [gas_constant] is imported from [burnman.constants] and the root
    finder from [scipy.optimize]; neither is part of this module, and both
    are parameters here.  [hybrd] stands for the MINPACK routine behind
    [opt.fsolve]: from the residual function and the starting point it
    produces the last iterate and the status flag ([1]: converged; [2]:
    the number of calls has reached [maxfev]; [3]: [xtol] is too small;
    [4], [5]: the iteration is not making good progress; [0]: improper
    input), or the exception the residual raised. *)
Section WithConstantsAndSolver.

Variable gas_constant : R.
Variable hybrd : (R -> result R) -> R -> result (R * Z).

(** [opt.fsolve(func, x0, args=...)[0]], with [full_output] left at its
    default, as scipy defines it: statuses 2 to 5 only issue a
    [RuntimeWarning] and the last iterate is returned as for status 1;
    any other status raises [TypeError]. *)
Definition fsolve (func : R -> result R) (x0 : R) : result R :=
  ('(x, status) ← hybrd func x0;
   if (status =? 1)%Z then Ok x
   else if ((2 <=? status) && (status <=? 5))%Z then Ok x
   else Raise TypeError)%py.

(** The helpers local to [_bragg_williams_excesses]; the variables they
    capture ([R = gas_constant], [n], [f], [deltaS]) are arguments. *)
Definition lnxord (n : pyval) (Q : R) : result R :=
  (np_log (1 + n * Q) + n * np_log (n + Q) - (1 + n) * np_log (1 + n))%py.

Definition lnxdisord (n : pyval) (Q : R) : result R :=
  ((1 / (1 + n)) * np_log (1 + n * Q)
   + (n / (1 + n)) * np_log (1 - Q)
   + (n / (1 + n)) * np_log (n * (1 - Q))
   + (n * n / (1 + n)) * np_log (n + Q)
   - n * np_log n)%py.

Definition reaction_bragg_williams (Q gibbs_disorder temperature : R)
    (n f : pyval) (W : R) : result R :=
  (let Q := if Rltb 1.0 Q then 0.9 else Q in
   gibbs_disorder + (2 * Q - 1) * W
   + f * gas_constant * temperature * (lnxdisord n Q - lnxord n Q))%py.

Definition order_gibbs (n f : pyval) (deltaS pressure temperature : R)
    (params : dict) : result (R * R) :=
  (W ← params.["Wh"] + pressure * params.["Wv"];
   gibbs_disorder ←
     params.["deltaH"] - f * temperature * deltaS
     + pressure * params.["deltaV"];
   Q ← fsolve
         (fun Q => reaction_bragg_williams Q gibbs_disorder temperature n f W)
         0.999995;
   G ←
     (1 - Q) * (gibbs_disorder
                + f * gas_constant * temperature * lnxdisord n Q)
     + f * Q * (gas_constant * temperature * lnxord n Q)
     + (1 - Q) * Q * W;
   Ok (Q, G))%py.

(** [_bragg_williams_excesses(pressure, temperature, params)] *)
Definition _bragg_williams_excesses (pressure temperature : R)
    (params : dict) : result Excesses.t :=
  (n ← getitem params "n";
   f ← getitem params "factor";
   deltaS ← gas_constant * ((1 + n) * np_log (1 + n) - n * np_log n);
   let order_gibbs := order_gibbs n f deltaS in
   let dT := 1 in
   let dP := 1000 in
   '(Q, G) ← order_gibbs pressure temperature params;
   '(Q, GsubPsubT) ← order_gibbs (pressure - dP)%R (temperature - dT)%R params;
   '(Q, GsubPaddT) ← order_gibbs (pressure - dP)%R (temperature + dT)%R params;
   '(Q, GaddPsubT) ← order_gibbs (pressure + dP)%R (temperature - dT)%R params;
   '(Q, GaddPaddT) ← order_gibbs (pressure + dP)%R (temperature + dT)%R params;
   '(Q, GsubP) ← order_gibbs (pressure - dP)%R temperature params;
   '(Q, GaddP) ← order_gibbs (pressure + dP)%R temperature params;
   '(Q, GsubT) ← order_gibbs pressure (temperature - dT)%R params;
   '(Q, GaddT) ← order_gibbs pressure (temperature + dT)%R params;
   dGdT ← (GaddT - GsubT) / (2 * dT);
   dGdP ← (GaddP - GsubP) / (2 * dP);
   d2GdT2 ← (GaddT + GsubT - 2 * G) / (dT * dT);
   d2GdP2 ← (GaddP + GsubP - 2 * G) / (dP * dP);
   d2GdPdT ←
     (GaddPaddT - GsubPaddT - GaddPsubT + GsubPsubT) / (4 * dT * dP);
   Ok (Excesses.make G dGdT dGdP d2GdT2 d2GdP2 d2GdPdT))%py.

(** [_magnetic_excesses_chs(pressure, temperature, params)] *)
Definition _magnetic_excesses_chs (pressure temperature : R)
    (params : dict) : result Excesses.t :=
  (structural_parameter ← getitem params "structural_parameter";
   curie_temperature ←
     params.["curie_temperature", 0%nat]
     + pressure * params.["curie_temperature", 1%nat];
   tau ← temperature / curie_temperature;
   dtaudT ← 1 / curie_temperature;
   dtaudP ←
     - (temperature * params.["curie_temperature", 1%nat])
     / (curie_temperature * curie_temperature);
   d2taudPdT ←
     params.["curie_temperature", 1%nat]
     / (curie_temperature * curie_temperature);
   d2taudP2 ←
     2 * temperature * params.["curie_temperature", 1%nat]
       * params.["curie_temperature", 1%nat]
     / (curie_temperature * curie_temperature * curie_temperature);
   magnetic_moment ←
     params.["magnetic_moment", 0%nat]
     + pressure * params.["magnetic_moment", 1%nat];
   dmagnetic_momentdP ← params.["magnetic_moment", 1%nat];
   A ← (518 / 1125) + (11692 / 15975) * ((1 / structural_parameter) - 1);
   '(f, dfdtau, d2fdtau2) ←
     (if Rltb tau 1 then
        f ←
          1 - (1 / A)
              * (79 / (140 * structural_parameter * tau)
                 + (474 / 497) * (1 / structural_parameter - 1)
                   * (np_power tau 3 / 6
                      + np_power tau 9 / 135
                      + np_power tau 15 / 600));
        dfdtau ←
          - (1 / A)
            * (-79 / (140 * structural_parameter * tau * tau)
               + (474 / 497) * (1 / structural_parameter - 1)
                 * (tau * tau / 2
                    + np_power tau 8 / 15
                    + np_power tau 14 / 40));
        d2fdtau2 ←
          - (1 / A)
            * (2 * 79 / (140 * structural_parameter * np_power tau 3)
               + (474 / 497) * (1 / structural_parameter - 1)
                 * (tau
                    + 8 * np_power tau 7 / 15
                    + 14 * np_power tau 13 / 40));
        Ok (f, dfdtau, d2fdtau2)
      else
        f ←
          - (1 / A)
            * (np_power tau (-5) / 10
               + np_power tau (-15) / 315
               + np_power tau (-25) / 1500);
        dfdtau ←
          (1 / A)
          * (np_power tau (-6) / 2
             + np_power tau (-16) / 21
             + np_power tau (-26) / 60);
        d2fdtau2 ←
          - (1 / A)
            * (6 * np_power tau (-7) / 2
               + 16 * np_power tau (-17) / 21
               + 26 * np_power tau (-27) / 60);
        Ok (f, dfdtau, d2fdtau2));
   dfdT ← dfdtau * dtaudT;
   d2fdT2 ← d2fdtau2 * dtaudT * dtaudT;
   dfdP ← dfdtau * dtaudP;
   d2fdP2 ← d2fdtau2 * dtaudP * dtaudP + dfdtau * d2taudP2;
   d2fdPdT ← d2fdtau2 * dtaudT * dtaudP - dfdtau * d2taudPdT;
   G ← gas_constant * temperature * np_log (magnetic_moment + 1) * f;
   dGdT ←
     gas_constant * np_log (magnetic_moment + 1) * (f + temperature * dfdT);
   d2GdT2 ←
     gas_constant * np_log (magnetic_moment + 1)
     * (2 * dfdT + temperature * d2fdT2);
   dGdP ←
     gas_constant * temperature
     * (f * dmagnetic_momentdP / (magnetic_moment + 1)
        + dfdP * np_log (magnetic_moment + 1));
   d2GdP2 ←
     gas_constant * temperature
     * (- f * np_power (dmagnetic_momentdP / (magnetic_moment + 1)) 2
        + 2 * dfdP * dmagnetic_momentdP / (magnetic_moment + 1)
        + d2fdP2 * np_log (magnetic_moment + 1));
   d2GdPdT ←
     dGdP / temperature
     + gas_constant * temperature * np_log (magnetic_moment + 1) * d2fdPdT
     + gas_constant * temperature * dmagnetic_momentdP
       / (magnetic_moment + 1) * dfdT;
   Ok (Excesses.make G dGdT dGdP d2GdT2 d2GdP2 d2GdPdT))%py.

End WithConstantsAndSolver.

(** ** The mineral *)

(** The attributes of a mineral object that this module reads or writes. *)
Module Mineral.
Record t : Type := make {
  pressure : R;
  temperature : R;
  params : dict;
  property_modifiers : list (string * dict);
  gibbs : R;
  C_p : R;
  K_T : R;
  alpha : R;
  S : R;
  V : R;
  H : R;
  helmholtz : R;
  C_v : R;
  gr : R;
  K_S : R
}.

Definition set_gibbs (x : R) (m : t) : t :=
  make (pressure m) (temperature m) (params m) (property_modifiers m)
    x (C_p m) (K_T m) (alpha m) (S m) (V m) (H m) (helmholtz m)
    (C_v m) (gr m) (K_S m).
Definition set_C_p (x : R) (m : t) : t :=
  make (pressure m) (temperature m) (params m) (property_modifiers m)
    (gibbs m) x (K_T m) (alpha m) (S m) (V m) (H m) (helmholtz m)
    (C_v m) (gr m) (K_S m).
Definition set_K_T (x : R) (m : t) : t :=
  make (pressure m) (temperature m) (params m) (property_modifiers m)
    (gibbs m) (C_p m) x (alpha m) (S m) (V m) (H m) (helmholtz m)
    (C_v m) (gr m) (K_S m).
Definition set_alpha (x : R) (m : t) : t :=
  make (pressure m) (temperature m) (params m) (property_modifiers m)
    (gibbs m) (C_p m) (K_T m) x (S m) (V m) (H m) (helmholtz m)
    (C_v m) (gr m) (K_S m).
Definition set_S (x : R) (m : t) : t :=
  make (pressure m) (temperature m) (params m) (property_modifiers m)
    (gibbs m) (C_p m) (K_T m) (alpha m) x (V m) (H m) (helmholtz m)
    (C_v m) (gr m) (K_S m).
Definition set_V (x : R) (m : t) : t :=
  make (pressure m) (temperature m) (params m) (property_modifiers m)
    (gibbs m) (C_p m) (K_T m) (alpha m) (S m) x (H m) (helmholtz m)
    (C_v m) (gr m) (K_S m).
Definition set_H (x : R) (m : t) : t :=
  make (pressure m) (temperature m) (params m) (property_modifiers m)
    (gibbs m) (C_p m) (K_T m) (alpha m) (S m) (V m) x (helmholtz m)
    (C_v m) (gr m) (K_S m).
Definition set_helmholtz (x : R) (m : t) : t :=
  make (pressure m) (temperature m) (params m) (property_modifiers m)
    (gibbs m) (C_p m) (K_T m) (alpha m) (S m) (V m) (H m) x
    (C_v m) (gr m) (K_S m).
Definition set_C_v (x : R) (m : t) : t :=
  make (pressure m) (temperature m) (params m) (property_modifiers m)
    (gibbs m) (C_p m) (K_T m) (alpha m) (S m) (V m) (H m) (helmholtz m)
    x (gr m) (K_S m).
Definition set_gr (x : R) (m : t) : t :=
  make (pressure m) (temperature m) (params m) (property_modifiers m)
    (gibbs m) (C_p m) (K_T m) (alpha m) (S m) (V m) (H m) (helmholtz m)
    (C_v m) x (K_S m).
Definition set_K_S (x : R) (m : t) : t :=
  make (pressure m) (temperature m) (params m) (property_modifiers m)
    (gibbs m) (C_p m) (K_T m) (alpha m) (S m) (V m) (H m) (helmholtz m)
    (C_v m) (gr m) x.
End Mineral.

(** ** Statements

    A statement maps the state before it to the state after it and either
    completes or raises.  What was written before an exception stays
    written. *)
Definition stmt (Σ : Type) : Type := Σ -> Σ * result unit.

Definition skip {Σ : Type} : stmt Σ := fun σ => (σ, Ok tt).

Definition seq {Σ : Type} (s1 s2 : stmt Σ) : stmt Σ := fun σ =>
  match s1 σ with
  | (σ', Ok _) => s2 σ'
  | (σ', Raise e) => (σ', Raise e)
  end.

Declare Scope stmt_scope.
Delimit Scope stmt_scope with stmt.
Notation "s1 ;; s2" := (seq s1 s2)
  (at level 100, s2 at level 200, right associativity) : stmt_scope.

(** [if c: s] with no [else]. *)
Definition when {Σ : Type} (c : bool) (s : stmt Σ) : stmt Σ :=
  if c then s else skip.

(** [for x in l: body] *)
Fixpoint for_each {Σ A : Type} (body : A -> stmt Σ) (l : list A) : stmt Σ :=
  match l with
  | [] => skip
  | x :: l' => seq (body x) (for_each body l')
  end.

(** ** The compositor *)

(** The objects a call [_modify_properties(mineral, excesses)] reaches. *)
Record frame : Type := Frame {
  mineral : Mineral.t;
  excesses : Excesses.t
}.

(** [mineral.attr = rhs]: the right-hand side is evaluated first; if it
    raises, nothing is written. *)
Definition setattr (set : R -> Mineral.t -> Mineral.t)
    (rhs : Mineral.t -> Excesses.t -> result R) : stmt frame := fun σ =>
  match rhs (mineral σ) (excesses σ) with
  | Ok x => (Frame (set x (mineral σ)) (excesses σ), Ok tt)
  | Raise e => (σ, Raise e)
  end.

(** [_modify_properties(mineral, excesses)] *)
Definition _modify_properties : stmt frame :=
  ((* Gibbs *)
   setattr Mineral.set_gibbs (fun mineral excesses =>
     Mineral.gibbs mineral + Excesses.G excesses)%py ;;
   (* Second derivatives first *)
   setattr Mineral.set_C_p (fun mineral excesses =>
     Mineral.C_p mineral
     - Mineral.temperature mineral * Excesses.d2GdT2 excesses)%py ;;
   setattr Mineral.set_K_T (fun mineral excesses =>
     - (Mineral.V mineral + Excesses.dGdP excesses)
     / (Excesses.d2GdP2 excesses
        - (Mineral.V mineral / Mineral.K_T mineral)))%py ;;
   setattr Mineral.set_alpha (fun mineral excesses =>
     ((Mineral.alpha mineral * Mineral.V mineral)
      + Excesses.d2GdPdT excesses)
     / (Mineral.V mineral + Excesses.dGdP excesses))%py ;;
   (* Now first derivatives *)
   setattr Mineral.set_S (fun mineral excesses =>
     Mineral.S mineral - Excesses.dGdT excesses)%py ;;
   setattr Mineral.set_V (fun mineral excesses =>
     Mineral.V mineral + Excesses.dGdP excesses)%py ;;
   setattr Mineral.set_H (fun mineral excesses =>
     Mineral.gibbs mineral
     + Mineral.temperature mineral * Mineral.S mineral)%py ;;
   (* Now volume derivatives *)
   setattr Mineral.set_helmholtz (fun mineral excesses =>
     Mineral.gibbs mineral
     - Mineral.pressure mineral * Mineral.V mineral)%py ;;
   setattr Mineral.set_C_v (fun mineral excesses =>
     Mineral.C_p mineral
     - Mineral.V mineral * Mineral.temperature mineral
       * Mineral.alpha mineral * Mineral.alpha mineral
       * Mineral.K_T mineral)%py ;;
   setattr Mineral.set_gr (fun mineral excesses =>
     Mineral.alpha mineral * Mineral.K_T mineral * Mineral.V mineral
     / Mineral.C_v mineral)%py ;;
   setattr Mineral.set_K_S (fun mineral excesses =>
     Mineral.K_T mineral * Mineral.C_p mineral
     / Mineral.C_v mineral)%py)%stmt.

(** ** The dispatcher *)
Section Dispatcher.

Variable gas_constant : R.
Variable hybrd : (R -> result R) -> R -> result (R * Z).

(** [_modify_properties(mineral, <call of an excess function>)]: the
    argument is evaluated on the current mineral, then the compositor
    runs on the mineral and the fresh excesses dictionary. *)
Definition modify_with (arg : Mineral.t -> result Excesses.t)
  : stmt Mineral.t := fun m =>
  match arg m with
  | Ok ex =>
      let (σ, r) := _modify_properties (Frame m ex) in (mineral σ, r)
  | Raise e => (m, Raise e)
  end.

(** The body of the loop of [apply_property_modifiers]. *)
Definition apply_modifier (modifier : string * dict) : stmt Mineral.t :=
  (when (bool_decide (modifier.1 = "landau"))
     (modify_with (fun mineral =>
        _landau_excesses (Mineral.pressure mineral)
          (Mineral.temperature mineral) modifier.2)) ;;
   when (bool_decide (modifier.1 = "landau_hp"))
     (modify_with (fun mineral =>
        P_0 ← getitem (Mineral.params mineral) "P_0";
        T_0 ← getitem (Mineral.params mineral) "T_0";
        _landau_hp_excesses (Mineral.pressure mineral)
          (Mineral.temperature mineral) P_0 T_0 modifier.2)%py) ;;
   when (bool_decide (modifier.1 = "dqf"))
     (modify_with (fun mineral =>
        _dqf_excesses (Mineral.pressure mineral)
          (Mineral.temperature mineral) modifier.2)) ;;
   when (bool_decide (modifier.1 = "bragg_williams"))
     (modify_with (fun mineral =>
        _bragg_williams_excesses gas_constant hybrd
          (Mineral.pressure mineral) (Mineral.temperature mineral)
          modifier.2)) ;;
   when (bool_decide (modifier.1 = "magnetic_chs"))
     (modify_with (fun mineral =>
        _magnetic_excesses_chs gas_constant
          (Mineral.pressure mineral) (Mineral.temperature mineral)
          modifier.2)))%stmt.

(** [apply_property_modifiers(mineral)] *)
Definition apply_property_modifiers : stmt Mineral.t := fun mineral =>
  for_each apply_modifier (Mineral.property_modifiers mineral) mineral.

End Dispatcher.

(** ** Specification vocabulary *)

(** The thermodynamic identities of the data model. *)
Definition thermodynamic_identities (m : Mineral.t) : Prop :=
  Mineral.H m = Mineral.gibbs m + Mineral.temperature m * Mineral.S m
  /\ Mineral.helmholtz m
     = Mineral.gibbs m - Mineral.pressure m * Mineral.V m
  /\ Mineral.C_v m
     = Mineral.C_p m
       - Mineral.V m * Mineral.temperature m * (Mineral.alpha m)² 
         * Mineral.K_T m
  /\ Mineral.K_S m = Mineral.K_T m * Mineral.C_p m / Mineral.C_v m
  /\ Mineral.gr m
     = Mineral.alpha m * Mineral.K_T m * Mineral.V m / Mineral.C_v m.

(** The eleven steps of the compositor as the specification lists them,
    in real arithmetic with no failing division. *)
Definition compositor_steps (m : Mineral.t) (ex : Excesses.t) : Mineral.t :=
  let P := Mineral.pressure m in
  let T := Mineral.temperature m in
  let G_new := Mineral.gibbs m + Excesses.G ex in
  let C_p_new := Mineral.C_p m - T * Excesses.d2GdT2 ex in
  let K_T_new :=
    - (Mineral.V m + Excesses.dGdP ex)
    / (Excesses.d2GdP2 ex - Mineral.V m / Mineral.K_T m) in
  let alpha_new :=
    (Mineral.alpha m * Mineral.V m + Excesses.d2GdPdT ex)
    / (Mineral.V m + Excesses.dGdP ex) in
  let S_new := Mineral.S m - Excesses.dGdT ex in
  let V_new := Mineral.V m + Excesses.dGdP ex in
  let H_new := G_new + T * S_new in
  let helmholtz_new := G_new - P * V_new in
  let C_v_new := C_p_new - V_new * T * alpha_new * alpha_new * K_T_new in
  let gr_new := alpha_new * K_T_new * V_new / C_v_new in
  let K_S_new := K_T_new * C_p_new / C_v_new in
  Mineral.make P T (Mineral.params m) (Mineral.property_modifiers m)
    G_new C_p_new K_T_new alpha_new S_new V_new H_new helmholtz_new
    C_v_new gr_new K_S_new.

(** No denominator of the compositor vanishes. *)
Definition nonzero_denominators (m : Mineral.t) (ex : Excesses.t) : Prop :=
  Mineral.K_T m <> 0
  /\ Excesses.d2GdP2 ex - Mineral.V m / Mineral.K_T m <> 0
  /\ Mineral.V m + Excesses.dGdP ex <> 0
  /\ Mineral.C_v (compositor_steps m ex) <> 0.

(** What a call of the compositor leaves as it was: the attributes of the
    mineral other than the eleven derived properties, and the excesses. *)
Definition frame_kept (σ σ' : frame) : Prop :=
  Mineral.pressure (mineral σ') = Mineral.pressure (mineral σ)
  /\ Mineral.temperature (mineral σ') = Mineral.temperature (mineral σ)
  /\ Mineral.params (mineral σ') = Mineral.params (mineral σ)
  /\ Mineral.property_modifiers (mineral σ')
     = Mineral.property_modifiers (mineral σ)
  /\ excesses σ' = excesses σ.

(** A setter of one of the derived properties. *)
Definition derived_setter (set : R -> Mineral.t -> Mineral.t) : Prop :=
  forall (x : R) (m : Mineral.t),
    Mineral.pressure (set x m) = Mineral.pressure m
    /\ Mineral.temperature (set x m) = Mineral.temperature m
    /\ Mineral.params (set x m) = Mineral.params m
    /\ Mineral.property_modifiers (set x m) = Mineral.property_modifiers m.

(** The excess record with six zero fields. *)
Definition zero_excesses : Excesses.t := Excesses.make 0 0 0 0 0 0.

(** The root finder [hybrd] with every report of non-convergence
    (status 2 to 5) replaced by status 1, "converged". *)
Definition assume_converged
    (hybrd : (R -> result R) -> R -> result (R * Z))
    (func : R -> result R) (x0 : R) : result (R * Z) :=
  ('(x, status) ← hybrd func x0;
   Ok (x, if ((2 <=? status) && (status <=? 5))%Z then 1%Z else status))%py.

(** ** Concrete inputs *)

(** The parameter set of the end-to-end scenario of the specification. *)
Definition dqf_params : dict :=
  {[ "H" := PyFloat 0; "S" := PyFloat 1.0; "V" := PyFloat 1e-6 ]}.

(** The mineral of the end-to-end scenario.  The specification gives
    [G], [S], [V], [C_p], [K_T], [alpha], the pressure and the
    temperature; the other derived properties are the ones the
    thermodynamic identities determine. *)
Definition scenario_mineral : Mineral.t :=
  Mineral.make 1e9 1000 ∅ [("dqf", dqf_params)]
    (-100) 100 2e11 2e-5 10 1e-5
    9900 (-10100) 99.2 (40 / 99.2) (2e13 / 99.2).

(** The excess record of the scenario's modifier at the scenario's
    pressure and temperature. *)
Definition scenario_excesses : Excesses.t :=
  Excesses.make (0 - 1000 * 1.0 + 1e9 * 1e-6) (- (1.0)) 1e-6 0 0 0.

(** The kind tags the dispatcher knows. *)
Definition modifier_kinds : list string :=
  ["landau"; "landau_hp"; "dqf"; "bragg_williams"; "magnetic_chs"].

(** A value for the gas constant, in J/K/mol. *)
Definition gas_constant_SI : R := 8.31446.

(** A root finder that gives up at once: it hands back the starting
    point with status 2 (the number of calls has reached [maxfev]). *)
Definition hybrd_gives_up (func : R -> result R) (x0 : R)
  : result (R * Z) :=
  Ok (x0, 2%Z).

(** The scenario mineral with a modifier of a kind the dispatcher does
    not know. *)
Definition unknown_kind_mineral : Mineral.t :=
  Mineral.make 1e9 1000 ∅ [("quadratic", dqf_params)]
    (-100) 100 2e11 2e-5 10 1e-5
    9900 (-10100) 99.2 (40 / 99.2) (2e13 / 99.2).

(** Parameters of a Landau transition: critical temperature 800 K at
    zero pressure, rising by 1e-7 K/Pa. *)
Definition landau_params : dict :=
  {[ "Tc_0" := PyFloat 800; "V_D" := PyFloat 1e-6; "S_D" := PyFloat 10 ]}.

(** Parameters of a magnetic correction with magnetic moment 0 at every
    pressure, and Curie temperature 1000 K. *)
Definition magnetic_params : dict :=
  {[ "structural_parameter" := PyFloat 0.4;
     "curie_temperature" := PyList [1000; 0];
     "magnetic_moment" := PyList [0; 0] ]}.

(** Parameters of a Bragg-Williams correction. *)
Definition bragg_williams_params : dict :=
  {[ "n" := PyFloat 1; "factor" := PyFloat 1;
     "deltaH" := PyFloat 10000; "deltaV" := PyFloat 1e-7;
     "Wh" := PyFloat 5000; "Wv" := PyFloat 0 ]}.

(** The scenario mineral with a vanishing isothermal bulk modulus. *)
Definition soft_mineral : Mineral.t :=
  Mineral.make 1e9 1000 ∅ [("dqf", dqf_params)]
    (-100) 100 0 2e-5 10 1e-5
    9900 (-10100) 100 0 0.

(** ** Vocabulary for the properties of the whole run *)

Section RunVocabulary.

Variable gas_constant : R.
Variable hybrd : (R -> result R) -> R -> result (R * Z).

(** The argument that the loop body of [apply_property_modifiers]
    evaluates for a modifier on a mineral: the call of the excess
    function that the kind tag selects, or nothing for any other tag. *)
Definition modifier_excesses (mineral : Mineral.t)
    (modifier : string * dict) : option (result Excesses.t) :=
  if decide (modifier.1 = "landau") then
    Some (_landau_excesses (Mineral.pressure mineral)
            (Mineral.temperature mineral) modifier.2)
  else if decide (modifier.1 = "landau_hp") then
    Some (P_0 ← getitem (Mineral.params mineral) "P_0";
          T_0 ← getitem (Mineral.params mineral) "T_0";
          _landau_hp_excesses (Mineral.pressure mineral)
            (Mineral.temperature mineral) P_0 T_0 modifier.2)%py
  else if decide (modifier.1 = "dqf") then
    Some (_dqf_excesses (Mineral.pressure mineral)
            (Mineral.temperature mineral) modifier.2)
  else if decide (modifier.1 = "bragg_williams") then
    Some (_bragg_williams_excesses gas_constant hybrd
            (Mineral.pressure mineral) (Mineral.temperature mineral)
            modifier.2)
  else if decide (modifier.1 = "magnetic_chs") then
    Some (_magnetic_excesses_chs gas_constant
            (Mineral.pressure mineral) (Mineral.temperature mineral)
            modifier.2)
  else None.

End RunVocabulary.

(** The mineral with another modifier list. *)
Definition with_property_modifiers (modifiers : list (string * dict))
    (m : Mineral.t) : Mineral.t :=
  Mineral.make (Mineral.pressure m) (Mineral.temperature m)
    (Mineral.params m) modifiers
    (Mineral.gibbs m) (Mineral.C_p m) (Mineral.K_T m) (Mineral.alpha m)
    (Mineral.S m) (Mineral.V m) (Mineral.H m) (Mineral.helmholtz m)
    (Mineral.C_v m) (Mineral.gr m) (Mineral.K_S m).

(** What a run of the dispatcher leaves as it was. *)
Definition mineral_frame_kept (m m' : Mineral.t) : Prop :=
  Mineral.pressure m' = Mineral.pressure m
  /\ Mineral.temperature m' = Mineral.temperature m
  /\ Mineral.params m' = Mineral.params m
  /\ Mineral.property_modifiers m' = Mineral.property_modifiers m.

(** A second linear correction: an enthalpy offset alone. *)
Definition dqf_offset_params : dict :=
  {[ "H" := PyFloat 100; "S" := PyFloat 0; "V" := PyFloat 0 ]}.

(** The scenario mineral with a Holland-Powell Landau modifier between
    two linear ones; its own parameters hold no reference state. *)
Definition layered_mineral : Mineral.t :=
  with_property_modifiers
    [("dqf", dqf_params); ("landau_hp", landau_params);
     ("dqf", dqf_offset_params)]
    scenario_mineral.

(** Parameters of a magnetic correction whose Curie temperature and
    magnetic moment do not change with pressure. *)
Definition magnetic_fixed_params : dict :=
  {[ "structural_parameter" := PyFloat 0.4;
     "curie_temperature" := PyList [1000; 0];
     "magnetic_moment" := PyList [2; 0] ]}.

(** What [_landau_hp_excesses] returns for [landau_params] at
    1.0001e9 Pa and 100 K with the reference state 1e5 Pa, 900 K: the
    order parameter is 1 and its reference value 0. *)
Definition landau_hp_ordered_excesses : Excesses.t :=
  Excesses.make (- 16000 / 3) 10 (- 1e-6)
    (- 10 / 1600) (- (1e-6 * 1e-6) / 16000) (1e-6 / 1600).

(** ** The compositor in binary64

    The same function on IEEE 754 binary64 numbers, the floats of
    Python: every [+], [-], [*] and [/] rounds to nearest, and [/] on
    Python floats raises [ZeroDivisionError] on a zero divisor.  The
    attributes that [_modify_properties] neither reads nor writes
    ([params], [property_modifiers]) are left out of the mineral. *)
Module Binary64.

Import PrimFloat.
Local Open Scope float_scope.
Local Set Warnings "-inexact-float".

Module Excesses.
Record t : Type := make {
  G : float;
  dGdT : float;
  dGdP : float;
  d2GdT2 : float;
  d2GdP2 : float;
  d2GdPdT : float
}.
End Excesses.

Module Mineral.
Record t : Type := make {
  pressure : float;
  temperature : float;
  gibbs : float;
  C_p : float;
  K_T : float;
  alpha : float;
  S : float;
  V : float;
  H : float;
  helmholtz : float;
  C_v : float;
  gr : float;
  K_S : float
}.

Definition set_gibbs (x : float) (m : t) : t :=
  make (pressure m) (temperature m) x (C_p m) (K_T m) (alpha m) (S m)
    (V m) (H m) (helmholtz m) (C_v m) (gr m) (K_S m).
Definition set_C_p (x : float) (m : t) : t :=
  make (pressure m) (temperature m) (gibbs m) x (K_T m) (alpha m) (S m)
    (V m) (H m) (helmholtz m) (C_v m) (gr m) (K_S m).
Definition set_K_T (x : float) (m : t) : t :=
  make (pressure m) (temperature m) (gibbs m) (C_p m) x (alpha m) (S m)
    (V m) (H m) (helmholtz m) (C_v m) (gr m) (K_S m).
Definition set_alpha (x : float) (m : t) : t :=
  make (pressure m) (temperature m) (gibbs m) (C_p m) (K_T m) x (S m)
    (V m) (H m) (helmholtz m) (C_v m) (gr m) (K_S m).
Definition set_S (x : float) (m : t) : t :=
  make (pressure m) (temperature m) (gibbs m) (C_p m) (K_T m) (alpha m)
    x (V m) (H m) (helmholtz m) (C_v m) (gr m) (K_S m).
Definition set_V (x : float) (m : t) : t :=
  make (pressure m) (temperature m) (gibbs m) (C_p m) (K_T m) (alpha m)
    (S m) x (H m) (helmholtz m) (C_v m) (gr m) (K_S m).
Definition set_H (x : float) (m : t) : t :=
  make (pressure m) (temperature m) (gibbs m) (C_p m) (K_T m) (alpha m)
    (S m) (V m) x (helmholtz m) (C_v m) (gr m) (K_S m).
Definition set_helmholtz (x : float) (m : t) : t :=
  make (pressure m) (temperature m) (gibbs m) (C_p m) (K_T m) (alpha m)
    (S m) (V m) (H m) x (C_v m) (gr m) (K_S m).
Definition set_C_v (x : float) (m : t) : t :=
  make (pressure m) (temperature m) (gibbs m) (C_p m) (K_T m) (alpha m)
    (S m) (V m) (H m) (helmholtz m) x (gr m) (K_S m).
Definition set_gr (x : float) (m : t) : t :=
  make (pressure m) (temperature m) (gibbs m) (C_p m) (K_T m) (alpha m)
    (S m) (V m) (H m) (helmholtz m) (C_v m) x (K_S m).
Definition set_K_S (x : float) (m : t) : t :=
  make (pressure m) (temperature m) (gibbs m) (C_p m) (K_T m) (alpha m)
    (S m) (V m) (H m) (helmholtz m) (C_v m) (gr m) x.
End Mineral.

Record frame : Type := Frame {
  mineral : Mineral.t;
  excesses : Excesses.t
}.

(** [a / b] on Python floats. *)
Definition truediv (a b : float) : result float :=
  if b =? 0 then Raise ArithmeticError else Ok (a / b).

(** [mineral.attr = rhs] *)
Definition setattr (set : float -> Mineral.t -> Mineral.t)
    (rhs : Mineral.t -> Excesses.t -> result float) : stmt frame := fun σ =>
  match rhs (mineral σ) (excesses σ) with
  | Ok x => (Frame (set x (mineral σ)) (excesses σ), Ok tt)
  | Raise e => (σ, Raise e)
  end.

(** [_modify_properties(mineral, excesses)] *)
Definition _modify_properties : stmt frame :=
  ((* Gibbs *)
   setattr Mineral.set_gibbs (fun mineral excesses =>
     Ok (Mineral.gibbs mineral + Excesses.G excesses)) ;;
   (* Second derivatives first *)
   setattr Mineral.set_C_p (fun mineral excesses =>
     Ok (Mineral.C_p mineral
         - Mineral.temperature mineral * Excesses.d2GdT2 excesses)) ;;
   setattr Mineral.set_K_T (fun mineral excesses =>
     bind (truediv (Mineral.V mineral) (Mineral.K_T mineral)) (fun q =>
     truediv (- (Mineral.V mineral + Excesses.dGdP excesses))
       (Excesses.d2GdP2 excesses - q))) ;;
   setattr Mineral.set_alpha (fun mineral excesses =>
     truediv
       ((Mineral.alpha mineral * Mineral.V mineral)
        + Excesses.d2GdPdT excesses)
       (Mineral.V mineral + Excesses.dGdP excesses)) ;;
   (* Now first derivatives *)
   setattr Mineral.set_S (fun mineral excesses =>
     Ok (Mineral.S mineral - Excesses.dGdT excesses)) ;;
   setattr Mineral.set_V (fun mineral excesses =>
     Ok (Mineral.V mineral + Excesses.dGdP excesses)) ;;
   setattr Mineral.set_H (fun mineral excesses =>
     Ok (Mineral.gibbs mineral
         + Mineral.temperature mineral * Mineral.S mineral)) ;;
   (* Now volume derivatives *)
   setattr Mineral.set_helmholtz (fun mineral excesses =>
     Ok (Mineral.gibbs mineral
         - Mineral.pressure mineral * Mineral.V mineral)) ;;
   setattr Mineral.set_C_v (fun mineral excesses =>
     Ok (Mineral.C_p mineral
         - Mineral.V mineral * Mineral.temperature mineral
           * Mineral.alpha mineral * Mineral.alpha mineral
           * Mineral.K_T mineral)) ;;
   setattr Mineral.set_gr (fun mineral excesses =>
     truediv
       (Mineral.alpha mineral * Mineral.K_T mineral * Mineral.V mineral)
       (Mineral.C_v mineral)) ;;
   setattr Mineral.set_K_S (fun mineral excesses =>
     truediv (Mineral.K_T mineral * Mineral.C_p mineral)
       (Mineral.C_v mineral)))%stmt.

(** The thermodynamic identities of the data model, as five tests with
    Python's [==] on the values the right-hand sides compute (for a
    mineral with a nonzero [C_v]). *)
Definition thermodynamic_identities (m : Mineral.t) : bool :=
  (Mineral.H m =? Mineral.gibbs m + Mineral.temperature m * Mineral.S m)
  && (Mineral.helmholtz m
      =? Mineral.gibbs m - Mineral.pressure m * Mineral.V m)
  && (Mineral.C_v m
      =? Mineral.C_p m
         - Mineral.V m * Mineral.temperature m
           * Mineral.alpha m * Mineral.alpha m * Mineral.K_T m)
  && (Mineral.K_S m
      =? Mineral.K_T m * Mineral.C_p m / Mineral.C_v m)
  && (Mineral.gr m
      =? Mineral.alpha m * Mineral.K_T m * Mineral.V m / Mineral.C_v m).



Definition zero_excesses : Excesses.t := Excesses.make 0 0 0 0 0 0.

(** The mineral of the end-to-end scenario with [alpha = 3e-5]:
    pressure 1e9, temperature 1000, [G = -100], [C_p = 100],
    [K_T = 2e11], [S = 10], [V = 1e-5], and [H], [helmholtz], [C_v], [gr],
    [K_S] as the identities compute them in binary64. *)
Definition rounding_mineral : Mineral.t :=
  let C_v := 100 - 1e-5 * 1000 * 3e-5 * 3e-5 * 2e11 in
  Mineral.make 1e9 1000 (-100) 100 2e11 3e-5 10 1e-5
    (-100 + 1000 * 10) (-100 - 1e9 * 1e-5) C_v
    (3e-5 * 2e11 * 1e-5 / C_v) (2e11 * 100 / C_v).


Definition same (x y : float) : bool := x =? y.

(** Python's [x != x], true of [nan] alone, and [math.isfinite]. *)
Definition is_nan (x : float) : bool := PrimFloat.is_nan x.
Definition is_finite (x : float) : bool := PrimFloat.is_finite x.

End Binary64.

(** * Properties *)

(** ** Evaluation lemmas for the runtime *)

Lemma getitem_float (d : dict) (k : string) (x : R) :
  d !! k = Some (PyFloat x) -> (d.[k])%py = Ok x.
Proof. unfold getitem. now intros ->. Qed.

Lemma getitem_subscript (d : dict) (k : string) (l : list R) (i : nat)
    (x : R) :
  d !! k = Some (PyList l) -> l !! i = Some x -> (d.[k, i])%py = Ok x.
Proof. unfold getitem. intros -> H. cbn. now rewrite H. Qed.

Lemma getitem_Some (d : dict) (k : string) (v : pyval) :
  d !! k = Some v -> getitem d k = Ok v.
Proof. unfold getitem. now intros ->. Qed.

Lemma getitem_None (d : dict) (k : string) :
  d !! k = None -> getitem d k = Raise (KeyError k).
Proof. unfold getitem. now intros ->. Qed.

Lemma py_div_Ok (a b : R) : b <> 0 -> (Ok a / Ok b)%py = Ok (a / b).
Proof.
  intros Hb. cbn. destruct (Req_dec_T b 0); [contradiction | reflexivity].
Qed.

Lemma py_div_zero (a b : R) :
  b = 0 -> (Ok a / Ok b)%py = Raise ArithmeticError.
Proof.
  intros Hb. cbn. destruct (Req_dec_T b 0); [reflexivity | contradiction].
Qed.

Lemma Rltb_true (x y : R) : x < y -> Rltb x y = true.
Proof. intros H. unfold Rltb. destruct (Rlt_dec x y); [reflexivity | contradiction]. Qed.

Lemma Rltb_false (x y : R) : ~ x < y -> Rltb x y = false.
Proof. intros H. unfold Rltb. destruct (Rlt_dec x y); [contradiction | reflexivity]. Qed.

Lemma np_sqrt_Ok (x : R) : 0 <= x -> np_sqrt (Ok x) = Ok (sqrt x).
Proof. intros H. cbn. destruct (Rlt_dec x 0); [lra | reflexivity]. Qed.

Lemma np_log_Ok (x : R) : 0 < x -> np_log (Ok x) = Ok (ln x).
Proof. intros H. cbn. destruct (Rlt_dec 0 x); [reflexivity | contradiction]. Qed.

Lemma Int_part_IZR (k : Z) : Int_part (IZR k) = k.
Proof. symmetry. apply Int_part_spec. lra. Qed.

(** A power with an integer exponent has a value unless the base is zero
    and the exponent negative, and the value is zero only for a zero base. *)
Lemma float_power_int (x : R) (k : Z) :
  x <> 0 -> exists p : R, float_power x (IZR k) = Ok p /\ p <> 0.
Proof.
  intros Hx. unfold float_power.
  destruct (Rlt_dec 0 x) as [Hpos | Hneg].
  - exists (Rpower x (IZR k)). split; [reflexivity |].
    unfold Rpower. pose proof (exp_pos (IZR k * ln x)). lra.
  - destruct (Req_dec_T x 0) as [-> | _]; [contradiction |].
    rewrite Int_part_IZR.
    destruct (Req_dec_T (IZR k) (IZR k)) as [_ | Hk]; [| contradiction].
    exists (powerRZ x k). split; [reflexivity | now apply powerRZ_NOR].
Qed.

Lemma float_power_zero_pos (y : R) : 0 < y -> float_power 0 y = Ok 0.
Proof.
  intros Hy. unfold float_power.
  destruct (Rlt_dec 0 0) as [H | _]; [lra |].
  destruct (Req_dec_T 0 0) as [_ | H]; [| contradiction].
  destruct (Rlt_dec 0 y); [reflexivity | contradiction].
Qed.

Lemma float_power_pos_exponent (x : R) (k : Z) :
  (0 < k)%Z -> exists p : R, float_power x (IZR k) = Ok p.
Proof.
  intros Hk. destruct (Req_dec_T x 0) as [-> | Hx].
  - exists 0. apply float_power_zero_pos. now apply (IZR_lt 0).
  - destruct (float_power_int x k Hx) as (p & Hp & _). now exists p.
Qed.

(** ** Evaluation lemmas for statements *)

Lemma seq_Ok {Σ : Type} (s1 s2 : stmt Σ) (σ σ' : Σ) :
  s1 σ = (σ', Ok tt) -> seq s1 s2 σ = s2 σ'.
Proof. unfold seq. now intros ->. Qed.

Lemma seq_Raise {Σ : Type} (s1 s2 : stmt Σ) (σ σ' : Σ) (e : exn) :
  s1 σ = (σ', Raise e) -> seq s1 s2 σ = (σ', Raise e).
Proof. unfold seq. now intros ->. Qed.

Lemma setattr_Raise (set : R -> Mineral.t -> Mineral.t)
    (rhs : Mineral.t -> Excesses.t -> result R) (σ : frame) (e : exn) :
  rhs (mineral σ) (excesses σ) = Raise e ->
  setattr set rhs σ = (σ, Raise e).
Proof. unfold setattr. now intros ->. Qed.

Lemma setattr_Ok (set : R -> Mineral.t -> Mineral.t)
    (rhs : Mineral.t -> Excesses.t -> result R) (σ : frame) (x : R) :
  rhs (mineral σ) (excesses σ) = Ok x ->
  setattr set rhs σ = (Frame (set x (mineral σ)) (excesses σ), Ok tt).
Proof. unfold setattr. now intros ->. Qed.

(** Normalisation of expressions whose operands all have values. *)
Ltac py_norm :=
  unfold pure_float;
  cbn [bind lift2 py_neg py_lt pure_float float_of subscript np_power
       mineral excesses
       Mineral.pressure Mineral.temperature Mineral.params
       Mineral.property_modifiers Mineral.gibbs Mineral.C_p Mineral.K_T
       Mineral.alpha Mineral.S Mineral.V Mineral.H Mineral.helmholtz
       Mineral.C_v Mineral.gr Mineral.K_S
       Mineral.set_gibbs Mineral.set_C_p Mineral.set_K_T Mineral.set_alpha
       Mineral.set_S Mineral.set_V Mineral.set_H Mineral.set_helmholtz
       Mineral.set_C_v Mineral.set_gr Mineral.set_K_S
       Excesses.G Excesses.dGdT Excesses.dGdP Excesses.d2GdT2
       Excesses.d2GdP2 Excesses.d2GdPdT].

Ltac py_side := first [assumption | lra].
Ltac py_eval := repeat (py_norm; rewrite ?py_div_Ok by py_side).

(** A product of nonzero factors is nonzero. *)
Ltac nonzero :=
  first [ assumption | lra
        | apply Rmult_integral_contrapositive_currified; nonzero ].

(** Names the values of the powers of a nonzero base [x]. *)
Ltac float_powers Hx :=
  repeat match goal with
  | |- context [float_power ?x (IZR ?k)] =>
      let p := fresh "p" in
      let E := fresh "E" in
      let Hp := fresh "Hp" in
      destruct (float_power_int x k Hx) as (p & E & Hp); rewrite E; clear E
  end.

(** ** Exceptions at work *)

(** A missing key is a [KeyError], raised at the first lookup. *)
Example dqf_missing_key :
  _dqf_excesses 1e9 1000 ∅ = Raise (KeyError "H").
Proof. reflexivity. Qed.

(** A list where a float is needed is a [TypeError]. *)
Example dqf_list_entry :
  _dqf_excesses 1e9 1000
    {[ "H" := PyFloat 0; "S" := PyList [1.0]; "V" := PyFloat 1e-6 ]}
  = Raise TypeError.
Proof. reflexivity. Qed.

(** A list under [H] is found out at the subtraction, after the lookup of
    [S]: with [S] missing the exception is the [KeyError]. *)
Example dqf_list_entry_and_missing_key :
  _dqf_excesses 1e9 1000 {[ "H" := PyList [0]; "V" := PyFloat 1e-6 ]}
  = Raise (KeyError "S").
Proof. reflexivity. Qed.

(** In [_landau_hp_excesses] the lookup of [Tc_0] comes before the
    comparison with [T_0]. *)
Example landau_hp_missing_Tc_0 :
  landau_hp_Q_0 (PyList [900]) ∅ = Raise (KeyError "Tc_0").
Proof. reflexivity. Qed.

(** With [K_T = 0] the third assignment of the compositor divides by
    zero; [gibbs] and [C_p] have been written by then and stay written,
    the other attributes are as before the call. *)
Example modify_properties_division_by_zero :
  _modify_properties (Frame soft_mineral scenario_excesses)
  = (Frame
       (Mineral.set_C_p (100 - 1000 * 0)
          (Mineral.set_gibbs (-100 + (0 - 1000 * 1.0 + 1e9 * 1e-6))
             soft_mineral))
       scenario_excesses,
     Raise ArithmeticError).
Proof.
  unfold _modify_properties.
  do 2 (erewrite seq_Ok; [| apply setattr_Ok; reflexivity]).
  apply seq_Raise, setattr_Raise.
  unfold soft_mineral, scenario_excesses. py_norm.
  now rewrite (py_div_zero 1e-5 0).
Qed.

(** ** The linear correction *)

Lemma dqf_excesses_eval (pressure temperature : R) (params : dict)
    (h s v : R) :
  params !! "H" = Some (PyFloat h) ->
  params !! "S" = Some (PyFloat s) ->
  params !! "V" = Some (PyFloat v) ->
  _dqf_excesses pressure temperature params
  = Ok (Excesses.make (h - temperature * s + pressure * v) (- s) v 0 0 0).
Proof.
  intros HH HS HV. unfold _dqf_excesses.
  rewrite (getitem_Some _ _ _ HH), !(getitem_float _ _ _ HS),
    !(getitem_float _ _ _ HV).
  reflexivity.
Qed.

(** C6.  For every pressure, temperature and parameter set with float
    entries [H], [S] and [V], [_dqf_excesses] returns
    [G = H - T*S + P*V], [dGdT = -S], [dGdP = V] and zero second
    derivatives.  The result is this one closed form at every input (no
    case distinction), and [G] is affine in [P] and [T]: it is the value
    at [(0, 0)] plus [P] times a constant plus [T] times a constant. *)
Theorem dqf_excesses_linear (params : dict) (h s v : R) :
  params !! "H" = Some (PyFloat h) ->
  params !! "S" = Some (PyFloat s) ->
  params !! "V" = Some (PyFloat v) ->
  (forall pressure temperature : R,
     _dqf_excesses pressure temperature params
     = Ok (Excesses.make (h - temperature * s + pressure * v) (- s) v 0 0 0))
  /\ (exists g0 gP gT : R, forall pressure temperature : R,
        exists ex : Excesses.t,
          _dqf_excesses pressure temperature params = Ok ex
          /\ Excesses.G ex = g0 + pressure * gP + temperature * gT).
Proof.
  intros HH HS HV. split.
  - intros P T. exact (dqf_excesses_eval P T params h s v HH HS HV).
  - exists h, v, (- s). intros P T. eexists.
    split; [exact (dqf_excesses_eval P T params h s v HH HS HV) |].
    cbn [Excesses.G]. ring.
Qed.

Lemma dqf_excesses_linear_witness :
  _dqf_excesses 1e9 1000 dqf_params
  = Ok (Excesses.make (0 - 1000 * 1.0 + 1e9 * 1e-6) (- (1.0)) 1e-6 0 0 0).
Proof.
  apply (proj1 (dqf_excesses_linear dqf_params 0 1.0 1e-6
                  eq_refl eq_refl eq_refl)).
Defined.

(** ** The compositor *)

Lemma seq_frame_kept (s1 s2 : stmt frame) :
  (forall σ, frame_kept σ (s1 σ).1) ->
  (forall σ, frame_kept σ (s2 σ).1) ->
  forall σ, frame_kept σ (seq s1 s2 σ).1.
Proof.
  intros H1 H2 σ. unfold seq. specialize (H1 σ).
  destruct (s1 σ) as [σ1 [[] | e]]; cbn in *; [| exact H1].
  specialize (H2 σ1). unfold frame_kept in *.
  destruct H1 as (? & ? & ? & ? & ?), H2 as (? & ? & ? & ? & ?).
  repeat split; congruence.
Qed.

Lemma setattr_frame_kept (set : R -> Mineral.t -> Mineral.t)
    (rhs : Mineral.t -> Excesses.t -> result R) :
  derived_setter set -> forall σ, frame_kept σ (setattr set rhs σ).1.
Proof.
  intros Hset σ. unfold setattr.
  destruct (rhs (mineral σ) (excesses σ)) as [x | e]; cbn.
  - destruct (Hset x (mineral σ)) as (? & ? & ? & ?). now repeat split.
  - now repeat split.
Qed.

(** C10.  For every mineral and every excess record, whether the call
    completes or raises, [_modify_properties] leaves the pressure and the
    temperature of the mineral (and its parameters and modifier list) as
    they were, and leaves the excess record as it was: only the eleven
    derived properties are written. *)
Theorem modify_properties_frame (σ : frame) :
  frame_kept σ (_modify_properties σ).1.
Proof.
  revert σ. unfold _modify_properties.
  repeat (apply seq_frame_kept; [apply setattr_frame_kept; now intros x [] |]).
  apply setattr_frame_kept. now intros x [].
Qed.

(** Under [nonzero_denominators] the compositor completes, and it
    computes the eleven steps of the specification. *)
Lemma modify_properties_steps (m : Mineral.t) (ex : Excesses.t) :
  nonzero_denominators m ex ->
  _modify_properties (Frame m ex) = (Frame (compositor_steps m ex) ex, Ok tt).
Proof.
  intros (HK & HD & HV & HC). destruct m, ex. unfold _modify_properties.
  cbn in HK, HD, HV, HC.
  repeat (erewrite seq_Ok;
    [| apply setattr_Ok; py_norm; rewrite ?py_div_Ok by assumption;
       py_norm; rewrite ?py_div_Ok by assumption; reflexivity ]; py_norm).
  erewrite setattr_Ok;
    [| py_norm; rewrite ?py_div_Ok by assumption; reflexivity ].
  reflexivity.
Qed.

Lemma compositor_steps_identities (m : Mineral.t) (ex : Excesses.t) :
  thermodynamic_identities (compositor_steps m ex).
Proof.
  unfold thermodynamic_identities, compositor_steps, Rsqr. cbn.
  repeat split; ring.
Qed.

(** C4.  Whenever no denominator of the compositor vanishes, the call of
    [_modify_properties] completes, and the mineral it leaves satisfies
    [H = G + T*S], [helmholtz = G - P*V], [C_v = C_p - V*T*alpha^2*K_T],
    [K_S = K_T*C_p/C_v] and [gr = alpha*K_T*V/C_v]. *)
Theorem modify_properties_identities (m : Mineral.t) (ex : Excesses.t) :
  nonzero_denominators m ex ->
  exists m' : Mineral.t,
    _modify_properties (Frame m ex) = (Frame m' ex, Ok tt)
    /\ thermodynamic_identities m'.
Proof.
  intros H. exists (compositor_steps m ex). split.
  - now apply modify_properties_steps.
  - apply compositor_steps_identities.
Qed.

Lemma scenario_steps :
  compositor_steps scenario_mineral scenario_excesses
  = Mineral.make 1e9 1000 ∅ [("dqf", dqf_params)]
      (-100) 100 2.2e11 (2e-5 / 1.1) 11 1.1e-5
      10900 (-11100) 99.2 (44 / 99.2) (2.2e13 / 99.2).
Proof.
  unfold compositor_steps, scenario_mineral, scenario_excesses. py_norm.
  f_equal; try lra;
    match goal with |- _ / ?d = _ => replace d with 99.2 by lra end; lra.
Qed.

Lemma scenario_nonzero_denominators :
  nonzero_denominators scenario_mineral scenario_excesses.
Proof.
  unfold nonzero_denominators. rewrite scenario_steps.
  unfold scenario_mineral, scenario_excesses. py_norm.
  repeat split; lra.
Qed.

Lemma modify_properties_identities_witness :
  exists m' : Mineral.t,
    _modify_properties (Frame scenario_mineral scenario_excesses)
    = (Frame m' scenario_excesses, Ok tt)
    /\ thermodynamic_identities m'.
Proof.
  apply (modify_properties_identities scenario_mineral scenario_excesses).
  exact scenario_nonzero_denominators.
Defined.





(** ** The dispatcher *)

Section DispatcherProperties.

Variable gas_constant : R.
Variable hybrd : (R -> result R) -> R -> result (R * Z).

Lemma for_each_app {Σ A : Type} (body : A -> stmt Σ) (l1 l2 : list A)
    (σ : Σ) :
  for_each body (l1 ++ l2) σ
  = seq (for_each body l1) (for_each body l2) σ.
Proof.
  revert σ. induction l1 as [| x l1 IH]; intros σ; cbn.
  - reflexivity.
  - unfold seq in *. destruct (body x σ) as [σ1 [[] | e]].
    + apply IH.
    + reflexivity.
Qed.

Lemma when_false {Σ : Type} (P : Prop) `{Decision P} (s : stmt Σ) :
  ~ P -> when (bool_decide P) s = skip.
Proof. intros HP. now rewrite bool_decide_eq_false_2. Qed.

Lemma when_true {Σ : Type} (P : Prop) `{Decision P} (s : stmt Σ) :
  P -> when (bool_decide P) s = s.
Proof. intros HP. now rewrite bool_decide_eq_true_2. Qed.

Lemma apply_modifier_unknown (kind : string) (params : dict)
    (m : Mineral.t) :
  kind ∉ modifier_kinds ->
  apply_modifier gas_constant hybrd (kind, params) m = (m, Ok tt).
Proof.
  unfold modifier_kinds. rewrite !not_elem_of_cons.
  intros (H1 & H2 & H3 & H4 & H5 & _).
  unfold apply_modifier. cbn [fst snd].
  rewrite !when_false by assumption. reflexivity.
Qed.

Lemma apply_modifier_dqf (params : dict) (m : Mineral.t) :
  apply_modifier gas_constant hybrd ("dqf", params) m
  = modify_with
      (fun mineral =>
         _dqf_excesses (Mineral.pressure mineral)
           (Mineral.temperature mineral) params) m.
Proof.
  unfold apply_modifier. cbn [fst snd].
  rewrite !when_false by discriminate.
  rewrite when_true by reflexivity.
  unfold seq, skip. cbn.
  now destruct (modify_with _ m) as [m' [[] | e]].
Qed.

Lemma scenario_run :
  apply_property_modifiers gas_constant hybrd scenario_mineral
  = (compositor_steps scenario_mineral scenario_excesses, Ok tt).
Proof.
  unfold apply_property_modifiers.
  change (Mineral.property_modifiers scenario_mineral)
    with [("dqf", dqf_params)].
  cbn [for_each]. unfold seq. rewrite apply_modifier_dqf.
  unfold modify_with.
  change (Mineral.pressure scenario_mineral) with 1e9.
  change (Mineral.temperature scenario_mineral) with 1000.
  rewrite (dqf_excesses_eval _ _ dqf_params 0 1.0 1e-6)
    by reflexivity.
  fold scenario_excesses.
  rewrite (modify_properties_steps _ _ scenario_nonzero_denominators).
  reflexivity.
Qed.

(** C1, as the code has it.  On the scenario mineral (G = -100, S = 10,
    V = 1e-5, C_p = 100, K_T = 2e11, alpha = 2e-5, pressure 1e9,
    temperature 1000) with the single modifier
    [('dqf', {H: 0, S: 1.0, V: 1e-6})], [apply_property_modifiers]
    completes and leaves G = -100, S = 11 and V = 1.1e-5: the excess
    entropy [S] of the modifier is added ([mineral.S - dGdT] with
    [dGdT = -S]), not subtracted. *)
Theorem scenario_result :
  exists m' : Mineral.t,
    apply_property_modifiers gas_constant hybrd scenario_mineral
    = (m', Ok tt)
    /\ Mineral.gibbs m' = -100
    /\ Mineral.S m' = 11
    /\ Mineral.V m' = 1.1e-5.
Proof.
  eexists. split; [apply scenario_run |].
  rewrite scenario_steps. now cbn.
Qed.

Lemma for_each_skip_one (before after : list (string * dict))
    (kind : string) (params : dict) (m : Mineral.t) :
  kind ∉ modifier_kinds ->
  for_each (apply_modifier gas_constant hybrd)
    (before ++ (kind, params) :: after) m
  = for_each (apply_modifier gas_constant hybrd) (before ++ after) m.
Proof.
  intros Hkind. rewrite !for_each_app. unfold seq.
  destruct (for_each _ before m) as [m1 [[] | e]]; [| reflexivity].
  cbn [for_each]. unfold seq.
  now rewrite apply_modifier_unknown.
Qed.

(** C2, as the code has it.  A modifier whose kind tag is none of
    [landau], [landau_hp], [dqf], [bragg_williams], [magnetic_chs] is
    passed over: on every mineral the loop body completes without an
    exception and leaves the mineral as it was, so that the whole run is
    the run over the list without this entry. *)
Theorem unknown_kind_skipped (before after : list (string * dict))
    (kind : string) (params : dict) (m : Mineral.t) :
  kind ∉ modifier_kinds ->
  Mineral.property_modifiers m = before ++ (kind, params) :: after ->
  (forall m' : Mineral.t,
     apply_modifier gas_constant hybrd (kind, params) m' = (m', Ok tt))
  /\ apply_property_modifiers gas_constant hybrd m
     = for_each (apply_modifier gas_constant hybrd) (before ++ after) m.
Proof.
  intros Hkind Hl. split.
  - intros m'. now apply apply_modifier_unknown.
  - unfold apply_property_modifiers. rewrite Hl.
    now apply for_each_skip_one.
Qed.

End DispatcherProperties.

Lemma quadratic_unknown : "quadratic" ∉ modifier_kinds.
Proof.
  unfold modifier_kinds. rewrite !not_elem_of_cons.
  repeat split; try discriminate. apply not_elem_of_nil.
Qed.

Lemma unknown_kind_skipped_witness :
  (forall m' : Mineral.t,
     apply_modifier gas_constant_SI hybrd_gives_up ("quadratic", dqf_params)
       m'
     = (m', Ok tt))
  /\ apply_property_modifiers gas_constant_SI hybrd_gives_up
       unknown_kind_mineral
     = for_each (apply_modifier gas_constant_SI hybrd_gives_up) ([] ++ [])
         unknown_kind_mineral.
Proof.
  apply (unknown_kind_skipped gas_constant_SI hybrd_gives_up [] []
           "quadratic" dqf_params unknown_kind_mineral).
  - exact quadratic_unknown.
  - reflexivity.
Defined.

(** C1 as stated fails: the scenario does not end with S = 9. *)
Lemma scenario_entropy_is_not_9 :
  ~ (exists m' : Mineral.t,
       apply_property_modifiers gas_constant_SI hybrd_gives_up
         scenario_mineral
       = (m', Ok tt)
       /\ Mineral.gibbs m' = -100
       /\ Mineral.S m' = 9
       /\ Mineral.V m' = 1.1e-5).
Proof.
  intros (m' & Hrun & _ & HS & _).
  rewrite scenario_run, scenario_steps in Hrun.
  injection Hrun as <-. cbn in HS. lra.
Qed.

(** C2 as stated fails: on a mineral whose only modifier has the unknown
    kind [quadratic], the run reports no error, and the mineral is as it
    was. *)
Lemma unknown_kind_no_error :
  apply_property_modifiers gas_constant_SI hybrd_gives_up
    unknown_kind_mineral
  = (unknown_kind_mineral, Ok tt)
  /\ ~ (exists e : exn,
         (apply_property_modifiers gas_constant_SI hybrd_gives_up
            unknown_kind_mineral).2
         = Raise e).
Proof.
  assert (Hrun :
    apply_property_modifiers gas_constant_SI hybrd_gives_up
      unknown_kind_mineral
    = (unknown_kind_mineral, Ok tt)).
  { unfold apply_property_modifiers.
    change (Mineral.property_modifiers unknown_kind_mineral)
      with ([] ++ ("quadratic", dqf_params) :: []).
    rewrite for_each_skip_one by exact quadratic_unknown. reflexivity. }
  split; [exact Hrun |].
  rewrite Hrun. intros (e & He). discriminate He.
Qed.

(** ** The tricritical Landau correction *)



(** ** The Holland-Powell Landau correction *)

(** C7.  In [_landau_hp_excesses], with float parameters [Tc_0], [V_D]
    and [S_D]: whenever [T_0 >= Tc_0] the reference order parameter [Q_0]
    is 0; and whenever the order parameter [Q] of the current state is at
    most 1e-12 (in particular below it), the function returns, with
    [d2GdT2], [d2GdP2] and [d2GdPdT] equal to 0. *)
Theorem landau_hp_guards (params : dict) (tc0 vd sd : R) :
  params !! "Tc_0" = Some (PyFloat tc0) ->
  params !! "V_D" = Some (PyFloat vd) ->
  params !! "S_D" = Some (PyFloat sd) ->
  (forall T_0 : R,
     T_0 >= tc0 -> landau_hp_Q_0 (PyFloat T_0) params = Ok 0)
  /\ (forall pressure temperature P_0 T_0 Q_0 Tc Q : R,
        landau_hp_Q_0 (PyFloat T_0) params = Ok Q_0 ->
        landau_hp_Tc pressure (PyFloat P_0) params = Ok Tc ->
        landau_hp_Q temperature Tc params = Ok Q ->
        Q <= 1e-12 ->
        exists ex : Excesses.t,
          _landau_hp_excesses pressure temperature (PyFloat P_0)
            (PyFloat T_0) params
          = Ok ex
          /\ Excesses.d2GdT2 ex = 0
          /\ Excesses.d2GdP2 ex = 0
          /\ Excesses.d2GdPdT ex = 0).
Proof.
  intros HTc0 HVD HSD. split.
  - intros T_0 HT0. unfold landau_hp_Q_0.
    rewrite (getitem_Some _ _ _ HTc0). py_norm.
    now rewrite Rltb_false by lra.
  - intros P T P_0 T_0 Q_0 Tc Q HQ0 HTc HQ Hsmall.
    unfold _landau_hp_excesses.
    rewrite HQ0. py_norm. rewrite HTc. py_norm. rewrite HQ.
    rewrite !(getitem_float _ _ _ HTc0), !(getitem_float _ _ _ HVD),
      !(getitem_float _ _ _ HSD).
    py_norm.
    destruct (float_power_pos_exponent Q_0 6) as (p0 & ->); [lia |].
    destruct (float_power_pos_exponent Q 6) as (p & ->); [lia |].
    py_eval. rewrite Rltb_false by lra.
    eexists. split; [reflexivity |]. now cbn.
Qed.

Lemma landau_hp_guards_witness :
  landau_hp_Q_0 (PyFloat 900) landau_params = Ok 0
  /\ exists ex : Excesses.t,
       _landau_hp_excesses 1e9 1000 (PyFloat 1e5) (PyFloat 900) landau_params
       = Ok ex
       /\ Excesses.d2GdT2 ex = 0
       /\ Excesses.d2GdP2 ex = 0
       /\ Excesses.d2GdPdT ex = 0.
Proof.
  destruct (landau_hp_guards landau_params 800 1e-6 10
              eq_refl eq_refl eq_refl) as [HQ_0 Hsecond].
  assert (H0 : landau_hp_Q_0 (PyFloat 900) landau_params = Ok 0)
    by (apply HQ_0; lra).
  split; [exact H0 |].
  apply (Hsecond 1e9 1000 1e5 900 0 (800 + 1e-6 * (1e9 - 1e5) / 10) 0 H0).
  - unfold landau_hp_Tc.
    rewrite (getitem_float landau_params "Tc_0" 800 eq_refl),
      (getitem_float landau_params "V_D" 1e-6 eq_refl),
      (getitem_float landau_params "S_D" 10 eq_refl).
    now py_eval.
  - unfold landau_hp_Q. now rewrite Rltb_false by lra.
  - lra.
Defined.

(** ** The magnetic correction *)

(** C9, as the code has it.  When both coefficients of [magnetic_moment]
    are 0, [_magnetic_excesses_chs] returns [G] and all five derivatives
    equal to 0 at every pressure and temperature at which no division
    fails: the temperature, the Curie temperature at that pressure, the
    structural parameter and the constant [A] are nonzero. *)
Theorem magnetic_zero_moment (gas_constant pressure temperature : R)
    (params : dict) (sp c0 c1 : R) (curie moment : list R) :
  params !! "structural_parameter" = Some (PyFloat sp) ->
  params !! "curie_temperature" = Some (PyList curie) ->
  curie !! 0%nat = Some c0 ->
  curie !! 1%nat = Some c1 ->
  params !! "magnetic_moment" = Some (PyList moment) ->
  moment !! 0%nat = Some 0 ->
  moment !! 1%nat = Some 0 ->
  temperature <> 0 ->
  c0 + pressure * c1 <> 0 ->
  sp <> 0 ->
  518 / 1125 + 11692 / 15975 * (1 / sp - 1) <> 0 ->
  _magnetic_excesses_chs gas_constant pressure temperature params
  = Ok zero_excesses.
Proof.
  intros Hsp Hcurie Hc0 Hc1 Hmoment Hm0 Hm1 HT HTc Hsp0 HA.
  unfold _magnetic_excesses_chs.
  rewrite (getitem_Some _ _ _ Hsp).
  rewrite !(getitem_subscript _ _ _ _ _ Hcurie Hc0),
    !(getitem_subscript _ _ _ _ _ Hcurie Hc1),
    !(getitem_subscript _ _ _ _ _ Hmoment Hm0),
    !(getitem_subscript _ _ _ _ _ Hmoment Hm1).
  set (Tc := c0 + pressure * c1) in *.
  py_norm. fold Tc.
  rewrite (py_div_Ok temperature Tc) by assumption.
  py_norm.
  set (tau := temperature / Tc).
  assert (Htau : tau <> 0).
  { unfold tau. intros H. apply HT.
    replace temperature with (temperature / Tc * Tc) by (field; assumption).
    rewrite H. ring. }
  repeat (rewrite !py_div_Ok by nonzero; py_norm).
  set (A := 518 / 1125 + 11692 / 15975 * (1 / sp - 1)) in *.
  (* the series in tau, on either side of tau = 1 *)
  match goal with
  | |- bind ?branch _ = _ =>
      assert (Hbranch : exists t, branch = Ok t)
  end.
  { destruct (Rltb tau 1); float_powers Htau;
      repeat (py_norm; rewrite ?py_div_Ok by nonzero);
      eexists; reflexivity. }
  destruct Hbranch as ([[f dfdtau] d2fdtau2] & ->).
  (* every term carries ln (0 + 1) or the slope 0 of the moment *)
  py_norm.
  replace (0 + pressure * 0 + 1) with 1 by ring.
  rewrite !np_log_Ok by lra. rewrite ln_1.
  repeat (py_norm; rewrite ?py_div_Ok by nonzero).
  replace (0 / 1) with 0 by field.
  rewrite float_power_zero_pos by lra.
  repeat (py_norm; rewrite ?py_div_Ok by nonzero).
  unfold zero_excesses. do 2 f_equal; field; nonzero.
Qed.

Lemma magnetic_zero_moment_witness :
  _magnetic_excesses_chs gas_constant_SI 1e9 300 magnetic_params
  = Ok zero_excesses.
Proof.
  apply (magnetic_zero_moment gas_constant_SI 1e9 300 magnetic_params
           0.4 1000 0 [1000; 0] [0; 0]
           eq_refl eq_refl eq_refl eq_refl eq_refl eq_refl eq_refl); lra.
Defined.

(** C9 as stated fails at the temperature 0: the reduced temperature
    [tau] is 0 there and the series for [tau < 1] divides by it. *)
Lemma magnetic_zero_moment_at_0K :
  _magnetic_excesses_chs gas_constant_SI 1e9 0 magnetic_params
  = Raise ArithmeticError
  /\ _magnetic_excesses_chs gas_constant_SI 1e9 0 magnetic_params
     <> Ok zero_excesses.
Proof.
  assert (Hrun :
    _magnetic_excesses_chs gas_constant_SI 1e9 0 magnetic_params
    = Raise ArithmeticError).
  { unfold _magnetic_excesses_chs.
    rewrite (getitem_Some magnetic_params "structural_parameter"
               (PyFloat 0.4) eq_refl).
    rewrite !(getitem_subscript magnetic_params "curie_temperature"
                [1000; 0] 0 1000 eq_refl eq_refl),
      !(getitem_subscript magnetic_params "curie_temperature"
          [1000; 0] 1 0 eq_refl eq_refl),
      !(getitem_subscript magnetic_params "magnetic_moment"
          [0; 0] 0 0 eq_refl eq_refl),
      !(getitem_subscript magnetic_params "magnetic_moment"
          [0; 0] 1 0 eq_refl eq_refl).
    repeat (py_norm; rewrite ?py_div_Ok by nonzero).
    replace (0 / (1000 + 1e9 * 0)) with 0 by (field; lra).
    rewrite Rltb_true by lra.
    rewrite (py_div_zero 79) by ring.
    reflexivity. }
  split; [exact Hrun |]. rewrite Hrun. discriminate.
Qed.

(** ** The Bragg-Williams correction *)

Lemma fsolve_assume_converged
    (hybrd : (R -> result R) -> R -> result (R * Z))
    (func : R -> result R) (x0 : R) :
  fsolve (assume_converged hybrd) func x0 = fsolve hybrd func x0.
Proof.
  unfold fsolve, assume_converged.
  destruct (hybrd func x0) as [[x status] | e]; [| reflexivity].
  cbn [bind].
  destruct ((2 <=? status) && (status <=? 5))%Z eqn:Hwarn.
  - cbn. now destruct (status =? 1)%Z.
  - now rewrite Hwarn.
Qed.

(** Case analysis on the first computation of a sequence. *)
Ltac bind_cases :=
  match goal with
  | |- bind ?m _ = bind ?m _ => destruct m; cbn [bind]; [| reflexivity]
  end.

Lemma order_gibbs_assume_converged (gas_constant : R)
    (hybrd : (R -> result R) -> R -> result (R * Z))
    (n f : pyval) (deltaS pressure temperature : R) (params : dict) :
  order_gibbs gas_constant (assume_converged hybrd) n f deltaS
    pressure temperature params
  = order_gibbs gas_constant hybrd n f deltaS pressure temperature params.
Proof.
  unfold order_gibbs. do 2 bind_cases.
  now rewrite fsolve_assume_converged.
Qed.

(** C3, as the code has it.  [_bragg_williams_excesses] takes the first
    entry of what [opt.fsolve] returns and never looks at whether the
    iteration converged: with any root finder, its outcome is the outcome
    it has when every solve that did not converge is reported as
    converged at its last iterate. *)
Theorem bragg_williams_ignores_convergence (gas_constant : R)
    (hybrd : (R -> result R) -> R -> result (R * Z))
    (pressure temperature : R) (params : dict) :
  _bragg_williams_excesses gas_constant hybrd pressure temperature params
  = _bragg_williams_excesses gas_constant (assume_converged hybrd)
      pressure temperature params.
Proof.
  unfold _bragg_williams_excesses. do 3 bind_cases.
  cbv zeta. now rewrite !order_gibbs_assume_converged.
Qed.

Lemma fsolve_gives_up (func : R -> result R) (x0 : R) :
  fsolve hybrd_gives_up func x0 = Ok x0.
Proof. reflexivity. Qed.

Lemma order_gibbs_gives_up (gas_constant deltaS pressure temperature : R) :
  exists G : R,
    order_gibbs gas_constant hybrd_gives_up (PyFloat 1) (PyFloat 1) deltaS
      pressure temperature bragg_williams_params
    = Ok (0.999995, G).
Proof.
  unfold order_gibbs, lnxord, lnxdisord.
  rewrite (getitem_float bragg_williams_params "Wh" 5000 eq_refl),
    (getitem_float bragg_williams_params "Wv" 0 eq_refl),
    (getitem_float bragg_williams_params "deltaH" 10000 eq_refl),
    (getitem_float bragg_williams_params "deltaV" 1e-7 eq_refl).
  py_norm. rewrite fsolve_gives_up.
  repeat (py_norm; rewrite ?py_div_Ok by lra; rewrite ?np_log_Ok by lra).
  eexists. reflexivity.
Qed.

(** C3 as stated fails: with a root finder that never converges, the
    function raises nothing; every solve yields the starting guess
    0.999995 as [Q], and the returned [G] is the one computed from it. *)
Lemma bragg_williams_unconverged_result :
  (forall (func : R -> result R) (x0 : R),
     hybrd_gives_up func x0 = Ok (x0, 2%Z))
  /\ exists (deltaS G : R) (ex : Excesses.t),
       order_gibbs gas_constant_SI hybrd_gives_up (PyFloat 1) (PyFloat 1)
         deltaS 1e9 1000 bragg_williams_params
       = Ok (0.999995, G)
       /\ _bragg_williams_excesses gas_constant_SI hybrd_gives_up 1e9 1000
            bragg_williams_params
          = Ok ex
       /\ Excesses.G ex = G.
Proof.
  split; [reflexivity |].
  unfold _bragg_williams_excesses.
  rewrite (getitem_Some bragg_williams_params "n" (PyFloat 1) eq_refl),
    (getitem_Some bragg_williams_params "factor" (PyFloat 1) eq_refl).
  repeat (py_norm; rewrite ?np_log_Ok by lra).
  cbv zeta.
  match goal with
  | |- context [order_gibbs _ _ _ _ ?dS 1e9 1000 _] => exists dS
  end.
  destruct (order_gibbs_gives_up gas_constant_SI
    (gas_constant_SI * ((1 + 1) * ln (1 + 1) - 1 * ln 1)) 1e9 1000)
    as (G & HG).
  exists G. rewrite HG. py_norm.
  repeat match goal with
  | |- context [order_gibbs ?gc hybrd_gives_up _ _ ?dS ?P ?T _] =>
      let G' := fresh "G" in
      destruct (order_gibbs_gives_up gc dS P T) as (G' & ->); py_norm
  end.
  repeat (py_norm; rewrite ?py_div_Ok by lra).
  eexists. repeat split; reflexivity.
Qed.

(** * Further properties *)

(** ** The compositor: what it raises *)

Lemma modify_properties_keeps_frame (σ : frame) :
  frame_kept σ (_modify_properties σ).1.
Proof.
  revert σ. unfold _modify_properties.
  repeat (apply seq_frame_kept; [apply setattr_frame_kept; now intros x [] |]).
  apply setattr_frame_kept. now intros x [].
Qed.

(** When a denominator vanishes the compositor raises. *)
Lemma modify_properties_raises (m : Mineral.t) (ex : Excesses.t) :
  ~ nonzero_denominators m ex ->
  (_modify_properties (Frame m ex)).2 = Raise ArithmeticError.
Proof.
  intros Hnot. destruct m, ex. unfold _modify_properties.
  unfold nonzero_denominators, compositor_steps in Hnot. cbn in Hnot.
  do 2 (erewrite seq_Ok; [| apply setattr_Ok; reflexivity]; py_norm).
  destruct (Req_dec K_T 0) as [HK | HK].
  { erewrite seq_Raise; [reflexivity |]. apply setattr_Raise. py_norm.
    now rewrite (py_div_zero V K_T HK). }
  destruct (Req_dec (d2GdP2 - V / K_T) 0) as [HD | HD].
  { erewrite seq_Raise; [reflexivity |]. apply setattr_Raise. py_norm.
    rewrite py_div_Ok by assumption. py_norm.
    now rewrite py_div_zero by assumption. }
  erewrite seq_Ok;
    [| apply setattr_Ok; py_norm; rewrite py_div_Ok by assumption; py_norm;
       rewrite py_div_Ok by assumption; reflexivity ]; py_norm.
  destruct (Req_dec (V + dGdP) 0) as [HV | HV].
  { erewrite seq_Raise; [reflexivity |]. apply setattr_Raise. py_norm.
    now rewrite py_div_zero by assumption. }
  erewrite seq_Ok;
    [| apply setattr_Ok; py_norm; rewrite py_div_Ok by assumption;
       reflexivity ]; py_norm.
  do 5 (erewrite seq_Ok; [| apply setattr_Ok; reflexivity]; py_norm).
  match goal with
  | |- (seq _ _ (Frame ?m' _)).2 = _ =>
      destruct (Req_dec (Mineral.C_v m') 0) as [HC | HC]
  end.
  - erewrite seq_Raise; [reflexivity |]. apply setattr_Raise. py_norm.
    now rewrite py_div_zero by exact HC.
  - exfalso. apply Hnot. repeat split; assumption.
Qed.

Lemma nonzero_denominators_dec (m : Mineral.t) (ex : Excesses.t) :
  nonzero_denominators m ex \/ ~ nonzero_denominators m ex.
Proof.
  unfold nonzero_denominators.
  destruct (Req_dec (Mineral.K_T m) 0);
    [right; now intros (? & _) |].
  destruct (Req_dec (Excesses.d2GdP2 ex - Mineral.V m / Mineral.K_T m) 0);
    [right; now intros (_ & ? & _) |].
  destruct (Req_dec (Mineral.V m + Excesses.dGdP ex) 0);
    [right; now intros (_ & _ & ? & _) |].
  destruct (Req_dec (Mineral.C_v (compositor_steps m ex)) 0);
    [right; now intros (_ & _ & _ & ?) |].
  now left.
Qed.

(** X1.  The only exception [_modify_properties] raises is the division
    error, and it raises it only when one of its four denominators is
    zero: the old [K_T], [d2GdP2 - V/K_T], the new volume [V + dGdP] or
    the new [C_v]. *)
Theorem modify_properties_raises_only_division (m : Mineral.t)
    (ex : Excesses.t) (e : exn) :
  (_modify_properties (Frame m ex)).2 = Raise e ->
  e = ArithmeticError
  /\ (Mineral.K_T m = 0
      \/ Excesses.d2GdP2 ex - Mineral.V m / Mineral.K_T m = 0
      \/ Mineral.V m + Excesses.dGdP ex = 0
      \/ Mineral.C_v (compositor_steps m ex) = 0).
Proof.
  intros Hrun. split.
  - destruct (nonzero_denominators_dec m ex) as [H | H].
    + rewrite (modify_properties_steps m ex H) in Hrun. discriminate Hrun.
    + rewrite (modify_properties_raises m ex H) in Hrun. congruence.
  - destruct (Req_dec (Mineral.K_T m) 0) as [| HK]; [now left |].
    destruct (Req_dec (Excesses.d2GdP2 ex - Mineral.V m / Mineral.K_T m) 0)
      as [| HD]; [now right; left |].
    destruct (Req_dec (Mineral.V m + Excesses.dGdP ex) 0) as [| HV];
      [now right; right; left |].
    destruct (Req_dec (Mineral.C_v (compositor_steps m ex)) 0) as [| HC];
      [now right; right; right |].
    rewrite (modify_properties_steps m ex) in Hrun by (repeat split; assumption).
    discriminate Hrun.
Qed.

Lemma modify_properties_raises_only_division_witness :
  ArithmeticError = ArithmeticError
  /\ (Mineral.K_T soft_mineral = 0
      \/ Excesses.d2GdP2 scenario_excesses
         - Mineral.V soft_mineral / Mineral.K_T soft_mineral = 0
      \/ Mineral.V soft_mineral + Excesses.dGdP scenario_excesses = 0
      \/ Mineral.C_v (compositor_steps soft_mineral scenario_excesses) = 0).
Proof.
  apply (modify_properties_raises_only_division soft_mineral
           scenario_excesses ArithmeticError).
  now rewrite modify_properties_division_by_zero.
Defined.

(** ** The dispatcher: one modifier *)

Section RunProperties.

Variable gas_constant : R.
Variable hybrd : (R -> result R) -> R -> result (R * Z).

Lemma modify_with_arg (arg : Mineral.t -> result Excesses.t)
    (m : Mineral.t) :
  modify_with arg m = modify_with (fun _ => arg m) m.
Proof. reflexivity. Qed.

(** The loop body evaluates the excess function of the modifier's kind,
    if it has one, and hands the result to the compositor. *)
Lemma apply_modifier_excesses (modifier : string * dict) (m : Mineral.t) :
  apply_modifier gas_constant hybrd modifier m
  = match modifier_excesses gas_constant hybrd m modifier with
    | None => (m, Ok tt)
    | Some arg => modify_with (fun _ => arg) m
    end.
Proof.
  destruct modifier as [kind params].
  unfold apply_modifier, modifier_excesses. cbn [fst snd].
  repeat (destruct (decide (kind = _)) as [-> | ?];
          [rewrite ?when_false by (assumption || discriminate);
           rewrite when_true by reflexivity;
           rewrite ?when_false by discriminate;
           unfold seq, skip;
           rewrite modify_with_arg;
           match goal with
           | |- context [modify_with ?f m] =>
               destruct (modify_with f m) as [m' [[] | e]]; reflexivity
           end |]).
  rewrite !when_false by assumption. reflexivity.
Qed.

Lemma modify_with_frame (arg : result Excesses.t) (m : Mineral.t) :
  mineral_frame_kept m (modify_with (fun _ => arg) m).1.
Proof.
  unfold modify_with. destruct arg as [ex | e]; [| now repeat split].
  pose proof (modify_properties_keeps_frame (Frame m ex)) as H.
  destruct (_modify_properties (Frame m ex)) as [σ r].
  destruct H as (? & ? & ? & ? & _). now repeat split.
Qed.

Lemma apply_modifier_frame (modifier : string * dict) (m : Mineral.t) :
  mineral_frame_kept m (apply_modifier gas_constant hybrd modifier m).1.
Proof.
  rewrite apply_modifier_excesses.
  destruct (modifier_excesses _ _ m modifier) as [arg |].
  - apply modify_with_frame.
  - now repeat split.
Qed.

Lemma for_each_frame (l : list (string * dict)) (m : Mineral.t) :
  mineral_frame_kept m (for_each (apply_modifier gas_constant hybrd) l m).1.
Proof.
  revert m. induction l as [| modifier l IH]; intros m; cbn [for_each].
  - now repeat split.
  - unfold seq. pose proof (apply_modifier_frame modifier m) as H1.
    destruct (apply_modifier _ _ modifier m) as [m1 [[] | e]];
      cbn [fst] in H1; [| exact H1].
    specialize (IH m1).
    destruct H1 as (? & ? & ? & ?), IH as (? & ? & ? & ?).
    repeat split; congruence.
Qed.

(** X3.  Whatever the modifiers and the solver, and whether the run
    completes or raises, [apply_property_modifiers] leaves the pressure,
    the temperature, the parameters and the modifier list of the mineral
    as they were. *)
Theorem apply_property_modifiers_frame (m : Mineral.t) :
  mineral_frame_kept m (apply_property_modifiers gas_constant hybrd m).1.
Proof. unfold apply_property_modifiers. apply for_each_frame. Qed.

Lemma modifier_excesses_frame (m m' : Mineral.t)
    (modifier : string * dict) :
  mineral_frame_kept m m' ->
  modifier_excesses gas_constant hybrd m' modifier
  = modifier_excesses gas_constant hybrd m modifier.
Proof.
  destruct m, m'. unfold mineral_frame_kept.
  cbn [Mineral.pressure Mineral.temperature Mineral.params
       Mineral.property_modifiers].
  intros (-> & -> & -> & _). reflexivity.
Qed.

(** X4.  A modifier whose excess function raises stops the run: the
    modifiers before it have been applied, the exception is reported, and
    neither this modifier nor any after it changes the mineral. *)
Theorem failing_modifier_stops_run (before after : list (string * dict))
    (modifier : string * dict) (m0 m : Mineral.t) (e : exn) :
  Mineral.property_modifiers m0 = before ++ modifier :: after ->
  for_each (apply_modifier gas_constant hybrd) before m0 = (m, Ok tt) ->
  modifier_excesses gas_constant hybrd m0 modifier = Some (Raise e) ->
  apply_property_modifiers gas_constant hybrd m0 = (m, Raise e).
Proof.
  intros Hl Hbefore Harg. unfold apply_property_modifiers.
  rewrite Hl, for_each_app. unfold seq at 1. rewrite Hbefore.
  cbn [for_each]. unfold seq. rewrite apply_modifier_excesses.
  pose proof (for_each_frame before m0) as Hframe.
  rewrite Hbefore in Hframe. cbn [fst] in Hframe.
  rewrite (modifier_excesses_frame m0 m modifier Hframe), Harg.
  reflexivity.
Qed.

(** ** The dispatcher: a linear correction *)

Lemma apply_modifier_dqf_steps (params : dict) (h s v : R) (m : Mineral.t) :
  params !! "H" = Some (PyFloat h) ->
  params !! "S" = Some (PyFloat s) ->
  params !! "V" = Some (PyFloat v) ->
  let ex :=
    Excesses.make
      (h - Mineral.temperature m * s + Mineral.pressure m * v) (- s) v 0 0 0 in
  nonzero_denominators m ex ->
  apply_modifier gas_constant hybrd ("dqf", params) m
  = (compositor_steps m ex, Ok tt).
Proof.
  intros HH HS HV ex Hden. rewrite apply_modifier_dqf. unfold modify_with.
  rewrite (dqf_excesses_eval _ _ params h s v HH HS HV). fold ex.
  now rewrite (modify_properties_steps m ex Hden).
Qed.

(** X6.  A [dqf] modifier with float entries [H], [S], [V], applied to a
    mineral for which no denominator of the compositor vanishes, adds
    [H - T*S + P*V] to the Gibbs energy, [S] to the entropy and [V] to
    the volume, and it leaves [C_p], the compressibility [V/K_T] and the
    product [alpha*V] as they were. *)
Theorem dqf_modifier_effect (params : dict) (h s v : R) (m : Mineral.t) :
  params !! "H" = Some (PyFloat h) ->
  params !! "S" = Some (PyFloat s) ->
  params !! "V" = Some (PyFloat v) ->
  nonzero_denominators m
    (Excesses.make
       (h - Mineral.temperature m * s + Mineral.pressure m * v)
       (- s) v 0 0 0) ->
  exists m' : Mineral.t,
    apply_modifier gas_constant hybrd ("dqf", params) m = (m', Ok tt)
    /\ Mineral.gibbs m'
       = Mineral.gibbs m
         + (h - Mineral.temperature m * s + Mineral.pressure m * v)
    /\ Mineral.S m' = Mineral.S m + s
    /\ Mineral.V m' = Mineral.V m + v
    /\ Mineral.C_p m' = Mineral.C_p m
    /\ Mineral.V m' / Mineral.K_T m' = Mineral.V m / Mineral.K_T m
    /\ Mineral.alpha m' * Mineral.V m' = Mineral.alpha m * Mineral.V m.
Proof.
  intros HH HS HV Hden. eexists. split.
  - exact (apply_modifier_dqf_steps params h s v m HH HS HV Hden).
  - destruct Hden as (HK & HD & HV' & _). destruct m.
    unfold compositor_steps. cbn in *.
    set (D := 0 - V / K_T) in *.
    repeat split; try ring.
    + replace ((V + v) / (- (V + v) / D)) with (- D)
        by (field; split; assumption).
      unfold D. ring.
    + field. assumption.
Qed.

End RunProperties.

(** ** Runs on the concrete minerals *)

Lemma dqf_modifier_effect_witness :
  exists m' : Mineral.t,
    apply_modifier gas_constant_SI hybrd_gives_up ("dqf", dqf_params)
      scenario_mineral
    = (m', Ok tt)
    /\ Mineral.gibbs m' = -100 + (0 - 1000 * 1.0 + 1e9 * 1e-6)
    /\ Mineral.S m' = 10 + 1.0
    /\ Mineral.V m' = 1e-5 + 1e-6
    /\ Mineral.C_p m' = 100
    /\ Mineral.V m' / Mineral.K_T m' = 1e-5 / 2e11
    /\ Mineral.alpha m' * Mineral.V m' = 2e-5 * 1e-5.
Proof.
  apply (dqf_modifier_effect gas_constant_SI hybrd_gives_up dqf_params
           0 1.0 1e-6 scenario_mineral eq_refl eq_refl eq_refl).
  exact scenario_nonzero_denominators.
Defined.

Lemma failing_modifier_stops_run_witness :
  apply_property_modifiers gas_constant_SI hybrd_gives_up layered_mineral
  = (with_property_modifiers
       [("dqf", dqf_params); ("landau_hp", landau_params);
        ("dqf", dqf_offset_params)]
       (compositor_steps scenario_mineral scenario_excesses),
     Raise (KeyError "P_0")).
Proof.
  apply (failing_modifier_stops_run gas_constant_SI hybrd_gives_up
           [("dqf", dqf_params)] [("dqf", dqf_offset_params)]
           ("landau_hp", landau_params) layered_mineral).
  - reflexivity.
  - cbn [for_each]. unfold seq.
    rewrite (apply_modifier_dqf_steps gas_constant_SI hybrd_gives_up
               dqf_params 0 1.0 1e-6)
      by (reflexivity || exact scenario_nonzero_denominators).
    reflexivity.
  - reflexivity.
Defined.

(** ** The linear correction: when it returns *)

(** X8.  [_dqf_excesses] returns exactly when the parameter set holds
    floats under [H], [S] and [V]; its only failures are the [KeyError]
    of a missing key and the [TypeError] of an entry that is a list, and
    a missing [H] is reported first. *)
Theorem dqf_excesses_returns_iff (pressure temperature : R) (params : dict) :
  ((exists ex : Excesses.t,
      _dqf_excesses pressure temperature params = Ok ex)
   <-> (exists h s v : R,
          params !! "H" = Some (PyFloat h)
          /\ params !! "S" = Some (PyFloat s)
          /\ params !! "V" = Some (PyFloat v)))
  /\ (forall e : exn,
        _dqf_excesses pressure temperature params = Raise e ->
        e = TypeError \/ e = KeyError "H" \/ e = KeyError "S"
        \/ e = KeyError "V")
  /\ (params !! "H" = None ->
      _dqf_excesses pressure temperature params = Raise (KeyError "H")).
Proof.
  unfold _dqf_excesses, getitem.
  destruct (params !! "H") as [[h | lh] |];
    destruct (params !! "S") as [[s | ls] |];
    destruct (params !! "V") as [[v | lv] |]; cbn;
    (split; [split | split]);
    try (intros (? & ?); discriminate);
    try (intros (? & ? & ? & ? & ? & ?); discriminate);
    try (intros _; now eexists);
    try (intros _; now exists h, s, v);
    try (intros e He; injection He as <-; tauto);
    try (intros e He; discriminate He);
    try (intros He; discriminate He);
    try reflexivity.
Qed.

(** ** The tricritical Landau correction below the transition *)

Lemma landau_ordered_eval (pressure temperature : R) (params : dict)
    (tc0 vd sd : R) :
  params !! "Tc_0" = Some (PyFloat tc0) ->
  params !! "V_D" = Some (PyFloat vd) ->
  params !! "S_D" = Some (PyFloat sd) ->
  sd <> 0 ->
  let Tc := tc0 + vd * pressure / sd in
  let Q2 := sqrt (1 - temperature / Tc) in
  let G_disordered := sd * ((temperature - Tc) + tc0 / 3) in
  0 < Tc ->
  temperature < Tc ->
  0 < Q2
  /\ _landau_excesses pressure temperature params
     = Ok (Excesses.make
             (sd * ((temperature - Tc) * Q2 + tc0 * Q2 * Q2 * Q2 / 3)
              - G_disordered)
             (sd * Q2 * (1.5 - 0.5 * tc0 / Tc) - sd)
             (- vd * Q2 * (1 + 0.5 * temperature / Tc * (1 - tc0 / Tc))
              - - vd)
             (- sd / (Tc * Q2) * (0.75 - 0.25 * tc0 / Tc))
             (vd * vd * temperature / (sd * Tc * Tc * Q2)
              * (temperature * (1 + tc0 / Tc) / (4 * Tc)
                 + Q2 * Q2 * (1 - tc0 / Tc) - 1))
             (vd / (2 * Tc * Q2)
              * (1 + (temperature / (2 * Tc) - Q2 * Q2) * (1 - tc0 / Tc)))).
Proof.
  intros HTc0 HVD HSD Hsd Tc Q2 G_disordered HTc HT.
  assert (Hpos : 0 < 1 - temperature / Tc).
  { apply Rlt_0_minus. apply (Rmult_lt_reg_r Tc); [assumption |].
    replace (temperature / Tc * Tc) with temperature by (field; lra). lra. }
  assert (HQ2 : 0 < Q2) by now apply sqrt_lt_R0.
  split; [exact HQ2 |].
  assert (HTc' : Tc <> 0) by lra.
  assert (HQ2' : Q2 <> 0) by lra.
  unfold _landau_excesses, landau_ordered_G, landau_ordered_dGdT,
    landau_ordered_dGdP.
  rewrite !(getitem_float _ _ _ HTc0), !(getitem_float _ _ _ HVD),
    !(getitem_float _ _ _ HSD).
  py_eval. fold Tc. rewrite (Rltb_true temperature Tc) by assumption.
  repeat (py_norm; rewrite ?py_div_Ok by nonzero).
  rewrite np_sqrt_Ok by lra. fold Q2.
  repeat (py_norm; rewrite ?py_div_Ok by nonzero).
  reflexivity.
Qed.

(** X9.  The tricritical Landau correction is relative to the ordered
    state at 0 K: at temperature 0 and a positive critical temperature
    [Tc] the function returns [G = 0] and [dGdP = 0], and
    [dGdT = S_D*(1 - Tc_0/Tc)/2], which is 0 at zero pressure. *)
Theorem landau_at_zero_kelvin (pressure : R) (params : dict)
    (tc0 vd sd : R) :
  params !! "Tc_0" = Some (PyFloat tc0) ->
  params !! "V_D" = Some (PyFloat vd) ->
  params !! "S_D" = Some (PyFloat sd) ->
  sd <> 0 ->
  0 < tc0 + vd * pressure / sd ->
  exists ex : Excesses.t,
    _landau_excesses pressure 0 params = Ok ex
    /\ Excesses.G ex = 0
    /\ Excesses.dGdP ex = 0
    /\ Excesses.dGdT ex = sd * (1 - tc0 / (tc0 + vd * pressure / sd)) / 2
    /\ (pressure = 0 -> Excesses.dGdT ex = 0).
Proof.
  intros HTc0 HVD HSD Hsd HTc.
  destruct (landau_ordered_eval pressure 0 params tc0 vd sd
              HTc0 HVD HSD Hsd HTc HTc) as [_ Heval].
  set (Tc := tc0 + vd * pressure / sd) in *.
  assert (HQ2 : sqrt (1 - 0 / Tc) = 1).
  { replace (1 - 0 / Tc) with 1 by (field; lra). apply sqrt_1. }
  rewrite HQ2 in Heval.
  eexists. split; [exact Heval |]. cbn [Excesses.G Excesses.dGdP Excesses.dGdT].
  replace 1.5 with (3 / 2) by lra. replace 0.5 with (1 / 2) by lra.
  repeat split.
  - field.
  - field. lra.
  - field. lra.
  - intros HP. subst Tc. rewrite HP in *.
    replace (tc0 + vd * 0 / sd) with tc0 in * by (field; assumption).
    field. lra.
Qed.

Lemma landau_at_zero_kelvin_witness :
  exists ex : Excesses.t,
    _landau_excesses 1e9 0 landau_params = Ok ex
    /\ Excesses.G ex = 0
    /\ Excesses.dGdP ex = 0
    /\ Excesses.dGdT ex = 10 * (1 - 800 / (800 + 1e-6 * 1e9 / 10)) / 2
    /\ (1e9 = 0 -> Excesses.dGdT ex = 0).
Proof.
  apply (landau_at_zero_kelvin 1e9 landau_params 800 1e-6 10
           eq_refl eq_refl eq_refl); lra.
Defined.

(** [py_norm] in a hypothesis. *)
Ltac py_norm_in H :=
  unfold pure_float in H;
  cbn [bind lift2 py_neg py_lt pure_float float_of subscript np_power
       Excesses.G Excesses.dGdT Excesses.dGdP Excesses.d2GdT2
       Excesses.d2GdP2 Excesses.d2GdPdT] in H.

(** X10.  With float parameters, [_landau_excesses] returns a record of
    real numbers exactly when [S_D] is nonzero and the temperature is at
    or above [Tc], or [Tc] is positive.  Below a critical temperature
    that is zero or negative it divides by zero or takes the square root
    of a negative number. *)
Theorem landau_returns_iff (pressure temperature : R) (params : dict)
    (tc0 vd sd : R) :
  params !! "Tc_0" = Some (PyFloat tc0) ->
  params !! "V_D" = Some (PyFloat vd) ->
  params !! "S_D" = Some (PyFloat sd) ->
  let Tc := tc0 + vd * pressure / sd in
  (exists ex : Excesses.t,
     _landau_excesses pressure temperature params = Ok ex)
  <-> sd <> 0 /\ (Tc <= temperature \/ 0 < Tc).
Proof.
  intros HTc0 HVD HSD Tc.
  destruct (Req_dec sd 0) as [Hsd | Hsd].
  { split; [| now intros [? _]]. intros (ex & Hex). exfalso.
    unfold _landau_excesses in Hex.
    rewrite !(getitem_float _ _ _ HTc0), !(getitem_float _ _ _ HVD),
      !(getitem_float _ _ _ HSD) in Hex.
    py_norm_in Hex. rewrite py_div_zero in Hex by assumption.
    discriminate Hex. }
  destruct (Rlt_dec temperature Tc) as [HT | HT].
  - destruct (Rlt_dec 0 Tc) as [HTc | HTc].
    + split; [intros _; split; [assumption | now right] | intros _].
      destruct (landau_ordered_eval pressure temperature params tc0 vd sd
                  HTc0 HVD HSD Hsd HTc HT) as [_ Heval].
      eexists. exact Heval.
    + split; [| intros [_ [H | H]]; lra]. intros (ex & Hex). exfalso.
      unfold _landau_excesses in Hex.
      rewrite !(getitem_float _ _ _ HTc0), !(getitem_float _ _ _ HVD),
        !(getitem_float _ _ _ HSD) in Hex.
      repeat (py_norm_in Hex; rewrite ?py_div_Ok in Hex by nonzero).
      fold Tc in Hex. rewrite (Rltb_true temperature Tc) in Hex by assumption.
      destruct (Req_dec Tc 0) as [H0 | H0].
      * py_norm_in Hex. rewrite py_div_zero in Hex by assumption.
        discriminate Hex.
      * repeat (py_norm_in Hex; rewrite ?py_div_Ok in Hex by nonzero).
        unfold np_sqrt in Hex. py_norm_in Hex.
        destruct (Rlt_dec (1 - temperature / Tc) 0) as [_ | Hge];
          [discriminate Hex |].
        apply Hge.
        replace (1 - temperature / Tc)
          with (- ((Tc - temperature) * / (- Tc))) by (field; assumption).
        assert (0 < (Tc - temperature) * / (- Tc)); [| lra].
        apply Rmult_lt_0_compat; [lra |]. apply Rinv_0_lt_compat. lra.
  - split; [intros _; split; [assumption | left; lra] | intros _].
    unfold _landau_excesses.
    rewrite !(getitem_float _ _ _ HTc0), !(getitem_float _ _ _ HVD),
      !(getitem_float _ _ _ HSD).
    repeat (py_norm; rewrite ?py_div_Ok by nonzero).
    fold Tc. rewrite (Rltb_false temperature Tc) by assumption.
    repeat (py_norm; rewrite ?py_div_Ok by nonzero).
    eexists. reflexivity.
Qed.

Lemma landau_returns_iff_witness :
  (exists ex : Excesses.t, _landau_excesses 1e9 300 landau_params = Ok ex)
  <-> 10 <> 0
      /\ (800 + 1e-6 * 1e9 / 10 <= 300 \/ 0 < 800 + 1e-6 * 1e9 / 10).
Proof.
  apply (landau_returns_iff 1e9 300 landau_params 800 1e-6 10
           eq_refl eq_refl eq_refl).
Defined.

(** ** The Holland-Powell Landau correction: reference state, disordered
    state, second derivatives *)

Lemma Rltb_true_inv (x y : R) : Rltb x y = true -> x < y.
Proof. unfold Rltb. now destruct (Rlt_dec x y). Qed.

Lemma float_power_pos (x y : R) : 0 < x -> float_power x y = Ok (Rpower x y).
Proof.
  intros Hx. unfold float_power.
  destruct (Rlt_dec 0 x); [reflexivity | contradiction].
Qed.

Lemma Rpower_base_1 (y : R) : Rpower 1 y = 1.
Proof. unfold Rpower. now rewrite ln_1, Rmult_0_r, exp_0. Qed.

Lemma landau_hp_Tc_eval (P P_0 : R) (params : dict) (tc0 vd sd : R) :
  params !! "Tc_0" = Some (PyFloat tc0) ->
  params !! "V_D" = Some (PyFloat vd) ->
  params !! "S_D" = Some (PyFloat sd) ->
  sd <> 0 ->
  landau_hp_Tc P (PyFloat P_0) params = Ok (tc0 + vd * (P - P_0) / sd).
Proof.
  intros HTc0 HVD HSD Hsd. unfold landau_hp_Tc.
  rewrite (getitem_float _ _ _ HTc0), (getitem_float _ _ _ HVD),
    (getitem_float _ _ _ HSD).
  now py_eval.
Qed.

(** The reference order parameter is the order parameter at the
    temperature [T_0] and the critical temperature [Tc_0]. *)
Lemma landau_hp_Q_0_eval (T_0 : R) (params : dict) (tc0 : R) :
  params !! "Tc_0" = Some (PyFloat tc0) ->
  landau_hp_Q_0 (PyFloat T_0) params = landau_hp_Q T_0 tc0 params.
Proof.
  intros HTc0. unfold landau_hp_Q_0, landau_hp_Q.
  rewrite (getitem_Some _ _ _ HTc0). py_norm.
  now destruct (Rltb T_0 tc0).
Qed.

(** X11.  At the reference pressure and temperature [P_0], [T_0] the
    order parameter [Q] is the reference order parameter [Q_0], whether
    the reference state is ordered or not, and [_landau_hp_excesses]
    returns [dGdT = 0] and [dGdP = 0]. *)
Theorem landau_hp_standard_state (P_0 T_0 : R) (params : dict)
    (tc0 vd sd Q_0 : R) :
  params !! "Tc_0" = Some (PyFloat tc0) ->
  params !! "V_D" = Some (PyFloat vd) ->
  params !! "S_D" = Some (PyFloat sd) ->
  sd <> 0 ->
  landau_hp_Q_0 (PyFloat T_0) params = Ok Q_0 ->
  exists ex : Excesses.t,
    _landau_hp_excesses P_0 T_0 (PyFloat P_0) (PyFloat T_0) params = Ok ex
    /\ Excesses.dGdT ex = 0
    /\ Excesses.dGdP ex = 0.
Proof.
  intros HTc0 HVD HSD Hsd HQ0.
  assert (HQ : landau_hp_Q T_0 tc0 params = Ok Q_0)
    by (now rewrite <- (landau_hp_Q_0_eval T_0 params tc0 HTc0)).
  assert (Hguard : 1e-12 < Q_0 -> tc0 <> 0).
  { intros Hlt ->. unfold landau_hp_Q in HQ.
    rewrite !(getitem_float _ _ _ HTc0) in HQ.
    destruct (Rltb T_0 0).
    - py_norm_in HQ. rewrite py_div_zero in HQ by reflexivity.
      discriminate HQ.
    - injection HQ as <-. lra. }
  unfold _landau_hp_excesses. rewrite HQ0. py_norm.
  rewrite (landau_hp_Tc_eval _ _ params tc0 vd sd HTc0 HVD HSD Hsd).
  replace (tc0 + vd * (P_0 - P_0) / sd) with tc0 by (field; assumption).
  py_norm. rewrite HQ.
  rewrite !(getitem_float _ _ _ HTc0), !(getitem_float _ _ _ HVD),
    !(getitem_float _ _ _ HSD).
  py_norm.
  destruct (float_power_pos_exponent Q_0 6) as (p & ->); [lia |].
  py_eval.
  destruct (Rltb 1e-12 Q_0) eqn:Hbig.
  - apply Rltb_true_inv in Hbig. specialize (Hguard Hbig).
    assert (Q_0 <> 0) by lra.
    repeat (py_norm; rewrite ?py_div_Ok by nonzero).
    eexists. split; [reflexivity |].
    cbn [Excesses.dGdT Excesses.dGdP]. split; ring.
  - eexists. split; [reflexivity |].
    cbn [Excesses.dGdT Excesses.dGdP]. split; ring.
Qed.

(** The reference state 300 K of [landau_params] is ordered. *)
Lemma landau_hp_ordered_reference :
  landau_hp_Q_0 (PyFloat 300) landau_params
  = Ok (Rpower ((800 - 300) / 800) 0.25).
Proof.
  unfold landau_hp_Q_0.
  rewrite (getitem_Some landau_params "Tc_0" (PyFloat 800) eq_refl).
  py_norm. rewrite (Rltb_true 300 800) by lra.
  rewrite py_div_Ok by lra. py_norm.
  apply float_power_pos. lra.
Qed.

Lemma landau_hp_standard_state_witness :
  exists ex : Excesses.t,
    _landau_hp_excesses 1e5 300 (PyFloat 1e5) (PyFloat 300) landau_params
    = Ok ex
    /\ Excesses.dGdT ex = 0
    /\ Excesses.dGdP ex = 0.
Proof.
  apply (landau_hp_standard_state 1e5 300 landau_params 800 1e-6 10
           (Rpower ((800 - 300) / 800) 0.25) eq_refl eq_refl eq_refl).
  - lra.
  - exact landau_hp_ordered_reference.
Defined.

(** X12.  When both the reference state and the current state are
    disordered ([T_0 >= Tc_0] and [T >= Tc]) the Holland-Powell
    correction vanishes: all six fields are 0. *)
Theorem landau_hp_disordered (pressure temperature P_0 T_0 : R)
    (params : dict) (tc0 vd sd : R) :
  params !! "Tc_0" = Some (PyFloat tc0) ->
  params !! "V_D" = Some (PyFloat vd) ->
  params !! "S_D" = Some (PyFloat sd) ->
  sd <> 0 ->
  tc0 <= T_0 ->
  tc0 + vd * (pressure - P_0) / sd <= temperature ->
  _landau_hp_excesses pressure temperature (PyFloat P_0) (PyFloat T_0) params
  = Ok zero_excesses.
Proof.
  intros HTc0 HVD HSD Hsd HT0 HT.
  unfold _landau_hp_excesses.
  rewrite (landau_hp_Tc_eval _ _ params tc0 vd sd HTc0 HVD HSD Hsd).
  rewrite (landau_hp_Q_0_eval T_0 params tc0 HTc0).
  unfold landau_hp_Q.
  rewrite !(getitem_float _ _ _ HTc0), !(getitem_float _ _ _ HVD),
    !(getitem_float _ _ _ HSD).
  py_norm. rewrite (Rltb_false T_0 tc0) by lra. py_norm.
  rewrite (Rltb_false temperature) by lra. py_norm.
  rewrite float_power_zero_pos by lra.
  py_eval. rewrite Rltb_false by lra.
  unfold zero_excesses. do 2 f_equal; field; assumption.
Qed.

Lemma landau_hp_disordered_witness :
  _landau_hp_excesses 1e9 1000 (PyFloat 1e5) (PyFloat 900) landau_params
  = Ok zero_excesses.
Proof.
  apply (landau_hp_disordered 1e9 1000 1e5 900 landau_params 800 1e-6 10
           eq_refl eq_refl eq_refl); lra.
Defined.

(** A run in the ordered state: at 1.0001e9 Pa the critical temperature
    of [landau_params] is 900 K, and at 100 K the order parameter is 1;
    the reference state 900 K is disordered. *)
Lemma landau_hp_ordered_run :
  _landau_hp_excesses 1.0001e9 100 (PyFloat 1e5) (PyFloat 900) landau_params
  = Ok landau_hp_ordered_excesses.
Proof.
  unfold _landau_hp_excesses.
  rewrite (landau_hp_Tc_eval _ _ landau_params 800 1e-6 10
             eq_refl eq_refl eq_refl) by lra.
  rewrite (landau_hp_Q_0_eval 900 landau_params 800 eq_refl).
  unfold landau_hp_Q.
  rewrite !(getitem_float landau_params "Tc_0" 800 eq_refl),
    !(getitem_float landau_params "V_D" 1e-6 eq_refl),
    !(getitem_float landau_params "S_D" 10 eq_refl).
  py_norm. rewrite (Rltb_false 900 800) by lra. py_norm.
  rewrite (Rltb_true 100) by lra.
  rewrite py_div_Ok by lra. py_norm.
  replace ((800 + 1e-6 * (1.0001e9 - 1e5) / 10 - 100) / 800) with 1
    by lra.
  rewrite (float_power_pos 1 0.25) by lra. rewrite Rpower_base_1.
  py_norm. rewrite float_power_zero_pos by lra.
  rewrite (float_power_pos 1 6) by lra. rewrite Rpower_base_1.
  py_eval. rewrite Rltb_true by lra.
  repeat (py_norm; rewrite ?py_div_Ok by lra).
  unfold landau_hp_ordered_excesses. do 2 f_equal; lra.
Qed.

(** X13.  Whenever [_landau_hp_excesses] returns, the second derivatives
    it returns satisfy [d2GdT2 * d2GdP2 = d2GdPdT * d2GdPdT]. *)
Theorem landau_hp_second_derivatives (pressure temperature : R)
    (P_0 T_0 : pyval) (params : dict) (tc0 vd sd : R) (ex : Excesses.t) :
  params !! "Tc_0" = Some (PyFloat tc0) ->
  params !! "V_D" = Some (PyFloat vd) ->
  params !! "S_D" = Some (PyFloat sd) ->
  _landau_hp_excesses pressure temperature P_0 T_0 params = Ok ex ->
  Excesses.d2GdT2 ex * Excesses.d2GdP2 ex
  = Excesses.d2GdPdT ex * Excesses.d2GdPdT ex.
Proof.
  intros HTc0 HVD HSD Hex. unfold _landau_hp_excesses in Hex.
  destruct (landau_hp_Q_0 T_0 params) as [Q_0 |]; [| discriminate Hex].
  py_norm_in Hex.
  destruct (landau_hp_Tc pressure P_0 params) as [Tc |]; [| discriminate Hex].
  py_norm_in Hex.
  destruct (landau_hp_Q temperature Tc params) as [Q |]; [| discriminate Hex].
  rewrite !(getitem_float _ _ _ HTc0), !(getitem_float _ _ _ HVD),
    !(getitem_float _ _ _ HSD) in Hex.
  py_norm_in Hex.
  destruct (float_power_pos_exponent Q_0 6) as (p0 & E0); [lia |].
  destruct (float_power_pos_exponent Q 6) as (p & E); [lia |].
  rewrite E0, E in Hex.
  repeat (py_norm_in Hex; rewrite ?py_div_Ok in Hex by lra).
  destruct (float_of P_0) as [P0 |]; [| discriminate Hex].
  repeat (py_norm_in Hex; rewrite ?py_div_Ok in Hex by lra).
  destruct (Rltb 1e-12 Q).
  - destruct (Req_dec (2 * tc0 * Q * Q) 0) as [H1 | H1].
    { rewrite (py_div_zero (- sd) _ H1) in Hex. py_norm_in Hex.
      discriminate Hex. }
    rewrite (py_div_Ok (- sd) _ H1), (py_div_Ok vd _ H1) in Hex.
    py_norm_in Hex.
    destruct (Req_dec (2 * sd * tc0 * Q * Q) 0) as [H2 | H2].
    { rewrite (py_div_zero _ _ H2) in Hex. py_norm_in Hex.
      discriminate Hex. }
    rewrite (py_div_Ok _ _ H2) in Hex. py_norm_in Hex.
    injection Hex as <-.
    cbn [Excesses.d2GdT2 Excesses.d2GdP2 Excesses.d2GdPdT].
    set (D1 := 2 * tc0 * Q * Q) in *. set (D2 := 2 * sd * tc0 * Q * Q) in *.
    assert (HD : D2 = sd * D1) by (unfold D1, D2; ring).
    assert (Hsd : sd <> 0) by (intros ->; apply H2; rewrite HD; ring).
    rewrite HD. field. split; assumption.
  - injection Hex as <-.
    cbn [Excesses.d2GdT2 Excesses.d2GdP2 Excesses.d2GdPdT]. ring.
Qed.

Lemma landau_hp_second_derivatives_witness :
  Excesses.d2GdT2 landau_hp_ordered_excesses
  * Excesses.d2GdP2 landau_hp_ordered_excesses
  = Excesses.d2GdPdT landau_hp_ordered_excesses
    * Excesses.d2GdPdT landau_hp_ordered_excesses.
Proof.
  apply (landau_hp_second_derivatives 1.0001e9 100 (PyFloat 1e5) (PyFloat 900)
           landau_params 800 1e-6 10 landau_hp_ordered_excesses
           eq_refl eq_refl eq_refl).
  exact landau_hp_ordered_run.
Defined.

(** ** The magnetic correction with pressure-independent parameters *)

Lemma magnetic_pressure_free (gas_constant P P' temperature : R)
    (params : dict) (c0 m0 : R) (curie moment : list R) :
  params !! "curie_temperature" = Some (PyList curie) ->
  curie !! 0%nat = Some c0 ->
  curie !! 1%nat = Some 0 ->
  params !! "magnetic_moment" = Some (PyList moment) ->
  moment !! 0%nat = Some m0 ->
  moment !! 1%nat = Some 0 ->
  _magnetic_excesses_chs gas_constant P temperature params
  = _magnetic_excesses_chs gas_constant P' temperature params.
Proof.
  intros Hcurie Hc0 Hc1 Hmoment Hm0 Hm1.
  unfold _magnetic_excesses_chs.
  rewrite !(getitem_subscript _ _ _ _ _ Hcurie Hc0),
    !(getitem_subscript _ _ _ _ _ Hcurie Hc1),
    !(getitem_subscript _ _ _ _ _ Hmoment Hm0),
    !(getitem_subscript _ _ _ _ _ Hmoment Hm1).
  py_norm.
  replace (c0 + P * 0) with c0 by ring.
  replace (c0 + P' * 0) with c0 by ring.
  replace (m0 + P * 0) with m0 by ring.
  replace (m0 + P' * 0) with m0 by ring.
  reflexivity.
Qed.

(** X14.  When the pressure coefficients of the Curie temperature and of
    the magnetic moment are both 0, the magnetic correction is the same
    record at every pressure, and its pressure derivatives [dGdP],
    [d2GdP2] and [d2GdPdT] are 0.  The record exists when no division
    fails and the logarithm has a positive argument. *)
Theorem magnetic_fixed_parameters (gas_constant temperature : R)
    (params : dict) (sp c0 m0 : R) (curie moment : list R) :
  params !! "structural_parameter" = Some (PyFloat sp) ->
  params !! "curie_temperature" = Some (PyList curie) ->
  curie !! 0%nat = Some c0 ->
  curie !! 1%nat = Some 0 ->
  params !! "magnetic_moment" = Some (PyList moment) ->
  moment !! 0%nat = Some m0 ->
  moment !! 1%nat = Some 0 ->
  temperature <> 0 ->
  c0 <> 0 ->
  sp <> 0 ->
  518 / 1125 + 11692 / 15975 * (1 / sp - 1) <> 0 ->
  0 < m0 + 1 ->
  exists ex : Excesses.t,
    (forall pressure : R,
       _magnetic_excesses_chs gas_constant pressure temperature params
       = Ok ex)
    /\ Excesses.dGdP ex = 0
    /\ Excesses.d2GdP2 ex = 0
    /\ Excesses.d2GdPdT ex = 0.
Proof.
  intros Hsp Hcurie Hc0 Hc1 Hmoment Hm0 Hm1 HT HTc Hsp0 HA Hm.
  assert (H0 : exists ex : Excesses.t,
             _magnetic_excesses_chs gas_constant 0 temperature params = Ok ex
             /\ Excesses.dGdP ex = 0
             /\ Excesses.d2GdP2 ex = 0
             /\ Excesses.d2GdPdT ex = 0).
  { unfold _magnetic_excesses_chs.
    rewrite (getitem_Some _ _ _ Hsp).
    rewrite !(getitem_subscript _ _ _ _ _ Hcurie Hc0),
      !(getitem_subscript _ _ _ _ _ Hcurie Hc1),
      !(getitem_subscript _ _ _ _ _ Hmoment Hm0),
      !(getitem_subscript _ _ _ _ _ Hmoment Hm1).
    py_norm.
    replace (c0 + 0 * 0) with c0 by ring.
    replace (m0 + 0 * 0) with m0 by ring.
    rewrite (py_div_Ok temperature c0) by assumption.
    py_norm.
    set (tau := temperature / c0).
    assert (Htau : tau <> 0).
    { unfold tau. intros H. apply HT.
      replace temperature with (temperature / c0 * c0) by (field; assumption).
      rewrite H. ring. }
    repeat (rewrite !py_div_Ok by nonzero; py_norm).
    set (A := 518 / 1125 + 11692 / 15975 * (1 / sp - 1)) in *.
    match goal with
    | |- exists ex, bind ?branch _ = _ /\ _ =>
        assert (Hbranch : exists t, branch = Ok t)
    end.
    { destruct (Rltb tau 1); float_powers Htau;
        repeat (py_norm; rewrite ?py_div_Ok by nonzero);
        eexists; reflexivity. }
    destruct Hbranch as ([[f dfdtau] d2fdtau2] & ->).
    py_norm.
    rewrite !np_log_Ok by lra.
    repeat (py_norm; rewrite ?py_div_Ok by nonzero).
    replace (0 / (m0 + 1)) with 0 by (field; lra).
    rewrite float_power_zero_pos by lra.
    repeat (py_norm; rewrite ?py_div_Ok by nonzero).
    eexists. split; [reflexivity |].
    cbn [Excesses.dGdP Excesses.d2GdP2 Excesses.d2GdPdT].
    repeat split; field; nonzero. }
  destruct H0 as (ex & Hex & HdP & HdP2 & HdPdT).
  exists ex. split; [| now repeat split].
  intros pressure. rewrite <- Hex.
  exact (magnetic_pressure_free gas_constant pressure 0 temperature params
           c0 m0 curie moment Hcurie Hc0 Hc1 Hmoment Hm0 Hm1).
Qed.

Lemma magnetic_fixed_parameters_witness :
  exists ex : Excesses.t,
    (forall pressure : R,
       _magnetic_excesses_chs gas_constant_SI pressure 300
         magnetic_fixed_params
       = Ok ex)
    /\ Excesses.dGdP ex = 0
    /\ Excesses.d2GdP2 ex = 0
    /\ Excesses.d2GdPdT ex = 0.
Proof.
  apply (magnetic_fixed_parameters gas_constant_SI 300 magnetic_fixed_params
           0.4 1000 2 [1000; 0] [2; 0]
           eq_refl eq_refl eq_refl eq_refl eq_refl eq_refl eq_refl); lra.
Defined.

(** ** The compositor in binary64: what a zero record leaves untouched *)

Lemma SFeqb_refl (x : SpecFloat.spec_float) :
  x <> SpecFloat.S754_nan -> SpecFloat.SFeqb x x = true.
Proof.
  intros Hx. unfold SpecFloat.SFeqb.
  destruct x as [s | s | | s m e]; cbn.
  - reflexivity.
  - now destruct s.
  - contradiction.
  - destruct s; rewrite Z.compare_refl, Pos.compare_cont_refl; reflexivity.
Qed.

Lemma not_nan_spec (x : PrimFloat.float) :
  Binary64.is_nan x = false -> FloatOps.Prim2SF x <> SpecFloat.S754_nan.
Proof.
  unfold Binary64.is_nan, PrimFloat.is_nan. rewrite FloatAxioms.eqb_spec.
  intros H E. rewrite E in H. discriminate H.
Qed.

Lemma same_spec (x y : PrimFloat.float) :
  Binary64.same x y
  = SpecFloat.SFeqb (FloatOps.Prim2SF x) (FloatOps.Prim2SF y).
Proof. apply FloatAxioms.eqb_spec. Qed.

Lemma finite_spec (x : PrimFloat.float) :
  Binary64.is_finite x = true ->
  (exists s, FloatOps.Prim2SF x = SpecFloat.S754_zero s)
  \/ (exists s m e, FloatOps.Prim2SF x = SpecFloat.S754_finite s m e).
Proof.
  unfold Binary64.is_finite, PrimFloat.is_finite, PrimFloat.is_nan,
    PrimFloat.is_infinity.
  rewrite !FloatAxioms.eqb_spec, FloatAxioms.abs_spec.
  destruct (FloatOps.Prim2SF x) as [s | s | | s m e]; intros H.
  - left. now exists s.
  - exfalso. destruct s; vm_compute in H; discriminate H.
  - exfalso. vm_compute in H. discriminate H.
  - right. now exists s, m, e.
Qed.

Lemma add_zero_same (x : PrimFloat.float) :
  Binary64.is_nan x = false ->
  Binary64.same (PrimFloat.add x PrimFloat.zero) x = true.
Proof.
  intros Hx. pose proof (not_nan_spec x Hx) as Hs.
  rewrite same_spec, FloatAxioms.add_spec.
  change (FloatOps.Prim2SF PrimFloat.zero) with (SpecFloat.S754_zero false).
  destruct (FloatOps.Prim2SF x) as [s | s | | s m e];
    try contradiction; try (now destruct s).
  apply SFeqb_refl. discriminate.
Qed.

Lemma sub_signed_zero_same (x : PrimFloat.float) (s : bool) :
  Binary64.is_nan x = false ->
  SpecFloat.SFeqb
    (FloatAxioms.SF64sub (FloatOps.Prim2SF x) (SpecFloat.S754_zero s))
    (FloatOps.Prim2SF x)
  = true.
Proof.
  intros Hx. pose proof (not_nan_spec x Hx) as Hs.
  destruct (FloatOps.Prim2SF x) as [sx | sx | | sx m e];
    try contradiction; try (now destruct sx, s).
  apply SFeqb_refl. discriminate.
Qed.

Lemma sub_zero_same (x : PrimFloat.float) :
  Binary64.is_nan x = false ->
  Binary64.same (PrimFloat.sub x PrimFloat.zero) x = true.
Proof.
  intros Hx. rewrite same_spec, FloatAxioms.sub_spec.
  change (FloatOps.Prim2SF PrimFloat.zero) with (SpecFloat.S754_zero false).
  now apply sub_signed_zero_same.
Qed.

Lemma sub_mul_zero_same (x t : PrimFloat.float) :
  Binary64.is_nan x = false ->
  Binary64.is_finite t = true ->
  Binary64.same (PrimFloat.sub x (PrimFloat.mul t PrimFloat.zero)) x = true.
Proof.
  intros Hx Ht.
  rewrite same_spec, FloatAxioms.sub_spec, FloatAxioms.mul_spec.
  change (FloatOps.Prim2SF PrimFloat.zero) with (SpecFloat.S754_zero false).
  destruct (finite_spec t Ht) as [(s & ->) | (s & m & e & ->)];
    now apply sub_signed_zero_same.
Qed.

(** The values that a call with the zero record can leave in [gibbs],
    [C_p], [S] and [V]. *)
Lemma modify_properties_zero_direct (m : Binary64.Mineral.t) :
  let m' :=
    Binary64.mineral
      (Binary64._modify_properties
         (Binary64.Frame m Binary64.zero_excesses)).1 in
  Binary64.Mineral.gibbs m'
  = PrimFloat.add (Binary64.Mineral.gibbs m) PrimFloat.zero
  /\ Binary64.Mineral.C_p m'
     = PrimFloat.sub (Binary64.Mineral.C_p m)
         (PrimFloat.mul (Binary64.Mineral.temperature m) PrimFloat.zero)
  /\ (Binary64.Mineral.S m' = Binary64.Mineral.S m
      \/ Binary64.Mineral.S m'
         = PrimFloat.sub (Binary64.Mineral.S m) PrimFloat.zero)
  /\ (Binary64.Mineral.V m' = Binary64.Mineral.V m
      \/ Binary64.Mineral.V m'
         = PrimFloat.add (Binary64.Mineral.V m) PrimFloat.zero).
Proof.
  destruct m.
  unfold Binary64._modify_properties, seq, Binary64.setattr,
    Binary64.truediv, Binary64.zero_excesses, bind.
  cbn.
  repeat match goal with
  | |- context [if PrimFloat.eqb ?a ?b then _ else _] =>
      destruct (PrimFloat.eqb a b); cbn
  end;
  repeat split; auto.
Qed.

(** X15.  In binary64, a call of [_modify_properties] with the all-zero
    record leaves [gibbs], [C_p], [S] and [V] equal (Python's [==]) to
    what they were, whether the call completes or a division raises on
    the way, when these four are numbers and the temperature is finite:
    adding or subtracting a zero does not round. *)
Theorem zero_record_keeps_direct_attributes (m : Binary64.Mineral.t) :
  Binary64.is_nan (Binary64.Mineral.gibbs m) = false ->
  Binary64.is_nan (Binary64.Mineral.C_p m) = false ->
  Binary64.is_nan (Binary64.Mineral.S m) = false ->
  Binary64.is_nan (Binary64.Mineral.V m) = false ->
  Binary64.is_finite (Binary64.Mineral.temperature m) = true ->
  let m' :=
    Binary64.mineral
      (Binary64._modify_properties
         (Binary64.Frame m Binary64.zero_excesses)).1 in
  Binary64.same (Binary64.Mineral.gibbs m') (Binary64.Mineral.gibbs m) = true
  /\ Binary64.same (Binary64.Mineral.C_p m') (Binary64.Mineral.C_p m) = true
  /\ Binary64.same (Binary64.Mineral.S m') (Binary64.Mineral.S m) = true
  /\ Binary64.same (Binary64.Mineral.V m') (Binary64.Mineral.V m) = true.
Proof.
  intros HG HC HS HV HT m'.
  destruct (modify_properties_zero_direct m) as (EG & EC & ES & EV).
  fold m' in EG, EC, ES, EV.
  rewrite EG, EC. repeat split.
  - now apply add_zero_same.
  - now apply sub_mul_zero_same.
  - destruct ES as [-> | ->]; [| now apply sub_zero_same].
    rewrite same_spec. apply SFeqb_refl. now apply not_nan_spec.
  - destruct EV as [-> | ->]; [| now apply add_zero_same].
    rewrite same_spec. apply SFeqb_refl. now apply not_nan_spec.
Qed.

Lemma zero_record_keeps_direct_attributes_witness :
  let m' :=
    Binary64.mineral
      (Binary64._modify_properties
         (Binary64.Frame Binary64.rounding_mineral Binary64.zero_excesses)).1
  in
  Binary64.same (Binary64.Mineral.gibbs m')
    (Binary64.Mineral.gibbs Binary64.rounding_mineral) = true
  /\ Binary64.same (Binary64.Mineral.C_p m')
       (Binary64.Mineral.C_p Binary64.rounding_mineral) = true
  /\ Binary64.same (Binary64.Mineral.S m')
       (Binary64.Mineral.S Binary64.rounding_mineral) = true
  /\ Binary64.same (Binary64.Mineral.V m')
       (Binary64.Mineral.V Binary64.rounding_mineral) = true.
Proof.
  apply (zero_record_keeps_direct_attributes Binary64.rounding_mineral);
    vm_compute; reflexivity.
Defined.
